(** * Endpoint registration handler (POST /api/endpoints)

    A shallow embedding of the Go handler of package [endpoints]:
    [endpointCreatePayload.Validate], [endpointCreate], [createEndpoint] and
    the four creation paths, together with the pieces of the Go standard
    library they rely on ([strconv.Itoa], [strings.TrimPrefix],
    [base64.RawStdEncoding]) and the digest of package [crypto].

    Go values are modelled as follows: [int] as [Z], [string] as [string],
    [[]byte] as [list byte], a nil-able slice as an [option (list _)], an
    [error] result as [option error] ([None] is Go's [nil]) and a Go function
    returning [(v, err)] as a pair.  The collaborators of the handler (HTTP
    client, snapshotter, file service, database, random source) are fields
    of the records [Runtime] and [Handler]; every call that leaves the
    process is recorded in the [trace] of the state. *)

From Stdlib Require Import ZArith List String Ascii Bool Lia.
From Stdlib.Strings Require Import Byte.
From Stdlib Require Import DecimalString.
From Stdlib Require DecimalPos DecimalZ.
Import ListNotations.

Local Open Scope string_scope.
Local Open Scope Z_scope.

Definition bytes := list byte.
Definition error := string.

(** ** Go standard library *)

(** [strconv.Itoa]: the decimal representation, ["-"] before a negative
    number. *)
Definition Itoa (i : Z) : string := NilZero.string_of_int (Z.to_int i).

(** [strings.HasPrefix] and [strings.TrimPrefix]. *)
Fixpoint HasPrefix (s prefix : string) : bool :=
  match prefix, s with
  | EmptyString, _ => true
  | String _ _, EmptyString => false
  | String c p', String d s' => Ascii.eqb c d && HasPrefix s' p'
  end.

Fixpoint dropString (n : nat) (s : string) : string :=
  match n, s with
  | O, _ => s
  | S _, EmptyString => EmptyString
  | S n', String _ s' => dropString n' s'
  end.

Definition TrimPrefix (s prefix : string) : string :=
  if HasPrefix s prefix then dropString (String.length prefix) s else s.

(** [encoding/base64]: the two 64-character alphabets. *)
Definition encodeStd : string :=
  "ABCDEFGHIJKLMNOPQRSTUVWXYZabcdefghijklmnopqrstuvwxyz0123456789+/".
Definition encodeURL : string :=
  "ABCDEFGHIJKLMNOPQRSTUVWXYZabcdefghijklmnopqrstuvwxyz0123456789-_".

(** [enc.encode[i]], the [i]-th character of an alphabet. *)
Definition encodeChar (alphabet : string) (i : Z) : ascii :=
  match String.get (Z.to_nat i) alphabet with
  | Some c => c
  | None => "="%char
  end.

Definition byteZ (b : byte) : Z := Z.of_N (Byte.to_N b).

(** [Encoding.Encode] for an encoding without padding ([NoPadding]): three
    source bytes give four characters, a last block of one byte gives two
    characters and a last block of two bytes gives three. *)
Fixpoint encodeNoPadding (alphabet : string) (src : bytes) : string :=
  match src with
  | [] => ""
  | [a] =>
      let val := Z.shiftl (byteZ a) 16 in
      String (encodeChar alphabet (Z.land (Z.shiftr val 18) 63))
        (String (encodeChar alphabet (Z.land (Z.shiftr val 12) 63)) "")
  | [a; b] =>
      let val := Z.lor (Z.shiftl (byteZ a) 16) (Z.shiftl (byteZ b) 8) in
      String (encodeChar alphabet (Z.land (Z.shiftr val 18) 63))
        (String (encodeChar alphabet (Z.land (Z.shiftr val 12) 63))
           (String (encodeChar alphabet (Z.land (Z.shiftr val 6) 63)) ""))
  | a :: b :: c :: rest =>
      let val := Z.lor (Z.lor (Z.shiftl (byteZ a) 16) (Z.shiftl (byteZ b) 8))
                   (byteZ c) in
      String (encodeChar alphabet (Z.land (Z.shiftr val 18) 63))
        (String (encodeChar alphabet (Z.land (Z.shiftr val 12) 63))
           (String (encodeChar alphabet (Z.land (Z.shiftr val 6) 63))
              (String (encodeChar alphabet (Z.land val 63))
                 (encodeNoPadding alphabet rest))))
  end.

(** [base64.RawStdEncoding.EncodeToString], the encoding the handler uses. *)
Definition RawStdEncoding_EncodeToString (src : bytes) : string :=
  encodeNoPadding encodeStd src.

(** [base64.RawURLEncoding.EncodeToString], the URL-safe unpadded encoding;
    the handler does not call it, it is here as the encoding the
    specification names. *)
Definition RawURLEncoding_EncodeToString (src : bytes) : string :=
  encodeNoPadding encodeURL src.

(** Membership of a character in a string. *)
Fixpoint inString (c : ascii) (s : string) : bool :=
  match s with
  | EmptyString => false
  | String d s' => Ascii.eqb c d || inString c s'
  end.

(** Every character of [s] is taken from [alphabet]. *)
Fixpoint allIn (alphabet s : string) : bool :=
  match s with
  | EmptyString => true
  | String c s' => inString c alphabet && allIn alphabet s'
  end.

(** ** Package [crypto] *)

(** Arithmetic on 32-bit words ([uint32]): truncation, rotation to the
    left, and the little-endian bytes of a number. *)
Definition word32 (x : Z) : Z := Z.land x 4294967295.

Definition rotateLeft32 (x k : Z) : Z :=
  Z.lor (word32 (Z.shiftl x k)) (Z.shiftr x (32 - k)).

Definition byteOfZ (z : Z) : byte :=
  match Byte.of_N (Z.to_N (Z.land z 255)) with
  | Some b => b
  | None => x00
  end.

Fixpoint littleEndian (n : nat) (x : Z) : bytes :=
  match n with
  | O => []
  | S n' => byteOfZ x :: littleEndian n' (Z.shiftr x 8)
  end.

Fixpoint fromLittleEndian (l : bytes) : Z :=
  match l with
  | [] => 0
  | b :: l' => Z.lor (byteZ b) (Z.shiftl (fromLittleEndian l') 8)
  end.

(** The MD5 digest (RFC 1321): the shift of each of the 64 steps, the
    table of constants [floor (2^32 * abs (sin (i + 1)))], one step on a
    block of sixteen words, one 64-byte block, the padding of the message
    (a byte 0x80, zeros up to 56 modulo 64, the length in bits on eight
    bytes) and the digest, the four words of the state in little-endian
    order. *)
Definition md5_shifts : list Z :=
  [7; 12; 17; 22; 7; 12; 17; 22; 7; 12; 17; 22; 7; 12; 17; 22; 5; 9; 14;
   20; 5; 9; 14; 20; 5; 9; 14; 20; 5; 9; 14; 20; 4; 11; 16; 23; 4; 11; 16;
   23; 4; 11; 16; 23; 4; 11; 16; 23; 6; 10; 15; 21; 6; 10; 15; 21; 6; 10;
   15; 21; 6; 10; 15; 21].

Definition md5_table : list Z :=
  [3614090360; 3905402710; 606105819; 3250441966; 4118548399; 1200080426;
   2821735955; 4249261313; 1770035416; 2336552879; 4294925233; 2304563134;
   1804603682; 4254626195; 2792965006; 1236535329; 4129170786; 3225465664;
   643717713; 3921069994; 3593408605; 38016083; 3634488961; 3889429448;
   568446438; 3275163606; 4107603335; 1163531501; 2850285829; 4243563512;
   1735328473; 2368359562; 4294588738; 2272392833; 1839030562; 4259657740;
   2763975236; 1272893353; 4139469664; 3200236656; 681279174; 3936430074;
   3572445317; 76029189; 3654602809; 3873151461; 530742520; 3299628645;
   4096336452; 1126891415; 2878612391; 4237533241; 1700485571; 2399980690;
   4293915773; 2240044497; 1873313359; 4264355552; 2734768916; 1309151649;
   4149444226; 3174756917; 718787259; 3951481745].

Definition md5_init : Z * Z * Z * Z :=
  (1732584193, 4023233417, 2562383102, 271733878).

Definition md5_step (block : list Z) (state : Z * Z * Z * Z) (i : nat)
    : Z * Z * Z * Z :=
  let '(a, b, c, d) := state in
  let j := Z.of_nat i in
  let '(f, g) :=
    if j <? 16 then
      (Z.lor (Z.land b c) (Z.land (Z.lxor b 4294967295) d), j)
    else if j <? 32 then
      (Z.lor (Z.land d b) (Z.land (Z.lxor d 4294967295) c), (5 * j + 1) mod 16)
    else if j <? 48 then
      (Z.lxor (Z.lxor b c) d, (3 * j + 5) mod 16)
    else
      (Z.lxor c (Z.lor b (Z.lxor d 4294967295)), (7 * j) mod 16) in
  let f := word32 (f + a + nth i md5_table 0 + nth (Z.to_nat g) block 0) in
  (d, word32 (b + rotateLeft32 f (nth i md5_shifts 0)), b, c).

Fixpoint md5_words (n : nat) (chunk : bytes) : list Z :=
  match n with
  | O => []
  | S n' => fromLittleEndian (firstn 4 chunk) :: md5_words n' (skipn 4 chunk)
  end.

Definition md5_block (state : Z * Z * Z * Z) (chunk : bytes)
    : Z * Z * Z * Z :=
  let '(a0, b0, c0, d0) := state in
  let '(a, b, c, d) :=
    fold_left (md5_step (md5_words 16 chunk)) (seq 0 64) state in
  (word32 (a0 + a), word32 (b0 + b), word32 (c0 + c), word32 (d0 + d)).

Fixpoint md5_chunks (n : nat) (message : bytes) : list bytes :=
  match n with
  | O => []
  | S n' => firstn 64 message :: md5_chunks n' (skipn 64 message)
  end.

Definition md5_padding (data : bytes) : bytes :=
  let len := Z.of_nat (List.length data) in
  (data ++ [x80] ++ repeat x00 (Z.to_nat ((55 - len) mod 64))
   ++ littleEndian 8 (8 * len))%list.

Definition md5_Sum (data : bytes) : bytes :=
  let message := md5_padding data in
  let '(a, b, c, d) :=
    fold_left md5_block
      (md5_chunks (Nat.div (List.length message) 64) message) md5_init in
  (littleEndian 4 a ++ littleEndian 4 b ++ littleEndian 4 c
   ++ littleEndian 4 d)%list.

(** Modelled from the spec: [crypto.HashFromBytes], which is not part of the
    sources.  The specification has the handler compute a cryptographic
    digest of fixed length over the serialised Edge key; the model is the
    MD5 digest of the bytes, sixteen bytes long. *)
Definition HashFromBytes (data : bytes) : bytes := md5_Sum data.

(** ** Types of package [portainer] *)

(** [portainer.EndpointType] is an [int]; the four constants, as the error
    message of [Validate] lists them. *)
Definition EndpointType := Z.
Definition DockerEnvironment : EndpointType := 1.
Definition AgentOnDockerEnvironment : EndpointType := 2.
Definition AzureEnvironment : EndpointType := 3.
Definition EdgeAgentEnvironment : EndpointType := 4.

Inductive EndpointStatus := EndpointStatusUp | EndpointStatusDown.

Inductive TLSFileType := TLSFileCA | TLSFileCert | TLSFileKey.

(** A snapshot is an opaque artifact for the handler. *)
Record Snapshot := mkSnapshot { SnapshotTime : Z }.

(** The [*tls.Config] built by package [crypto] is an opaque handle. *)
Record tls_Config := mkTLSHandle { tlsHandle : Z }.

Module TLSConfiguration.
Record t := mk {
    TLS : bool;
    TLSSkipVerify : bool;
    TLSCACertPath : string;
    TLSCertPath : string;
    TLSKeyPath : string
  }.
(** The Go zero value. *)
Definition zero : t := mk false false "" "" "".
End TLSConfiguration.

Module AzureCredentials.
Record t := mk {
    ApplicationID : string;
    TenantID : string;
    AuthenticationKey : string
  }.
Definition zero : t := mk "" "" "".
End AzureCredentials.

Module EdgeKey.
Record t := mk {
    TunnelServerAddr : string;
    TunnelServerPort : string;
    TunnelPort : string;
    TunnelServerFingerprint : string;
    Credentials : string
  }.
End EdgeKey.

(** [portainer.Endpoint], with the fields the handler sets to something
    other than an empty collection of access policies or extensions. *)
Module Endpoint.
Record t := mk {
    ID : Z;
    Name : string;
    URL : string;
    Type_ : EndpointType;
    GroupID : Z;
    PublicURL : string;
    TLSConfig : TLSConfiguration.t;
    AzureCredentials : AzureCredentials.t;
    Tags : option (list string);
    Status : EndpointStatus;
    Snapshots : list Snapshot;
    EdgeKey : string
  }.

Definition with_Status (s : EndpointStatus) (e : t) : t :=
    mk (ID e) (Name e) (URL e) (Type_ e) (GroupID e) (PublicURL e)
       (TLSConfig e) (AzureCredentials e) (Tags e) s (Snapshots e) (EdgeKey e).
Definition with_Snapshots (l : list Snapshot) (e : t) : t :=
    mk (ID e) (Name e) (URL e) (Type_ e) (GroupID e) (PublicURL e)
       (TLSConfig e) (AzureCredentials e) (Tags e) (Status e) l (EdgeKey e).
Definition with_TLSConfig (c : TLSConfiguration.t) (e : t) : t :=
    mk (ID e) (Name e) (URL e) (Type_ e) (GroupID e) (PublicURL e)
       c (AzureCredentials e) (Tags e) (Status e) (Snapshots e) (EdgeKey e).
End Endpoint.

(** [httperror.HandlerError]. *)
Module HandlerError.
Record t := mk {
    StatusCode : Z;
    Message : string;
    Err : error
  }.
End HandlerError.

Definition StatusBadRequest : Z := 400.
Definition StatusInternalServerError : Z := 500.
Definition StatusServiceUnavailable : Z := 503.

(** An HTTP status in the 4xx class is a client error, one in the 5xx class
    a server error. *)
Definition isClientError (code : Z) : bool := (400 <=? code) && (code <? 500).
Definition isServerError (code : Z) : bool := (500 <=? code) && (code <? 600).

(** ** The registration request *)

Module endpointCreatePayload.
Record t := mk {
  Name : string;
  URL : string;
  EndpointType : Z;
  PublicURL : string;
  GroupID : Z;
  TLS : bool;
  TLSSkipVerify : bool;
  TLSSkipClientVerify : bool;
  TLSCACertFile : bytes;
  TLSCertFile : bytes;
  TLSKeyFile : bytes;
  AzureApplicationID : string;
  AzureTenantID : string;
  AzureAuthenticationKey : string;
  Tags : option (list string)
}.

(** [&endpointCreatePayload{}]: every field at its zero value, [Tags] nil. *)
Definition zero : t :=
  mk "" "" 0 "" 0 false false false [] [] [] "" "" "" None.

(** Field assignments [payload.F = v]. *)
Definition with_Name (v : string) (p : t) : t :=
  mk v (URL p) (EndpointType p) (PublicURL p) (GroupID p) (TLS p)
     (TLSSkipVerify p) (TLSSkipClientVerify p) (TLSCACertFile p)
     (TLSCertFile p) (TLSKeyFile p) (AzureApplicationID p) (AzureTenantID p)
     (AzureAuthenticationKey p) (Tags p).
Definition with_URL (v : string) (p : t) : t :=
  mk (Name p) v (EndpointType p) (PublicURL p) (GroupID p) (TLS p)
     (TLSSkipVerify p) (TLSSkipClientVerify p) (TLSCACertFile p)
     (TLSCertFile p) (TLSKeyFile p) (AzureApplicationID p) (AzureTenantID p)
     (AzureAuthenticationKey p) (Tags p).
Definition with_EndpointType (v : Z) (p : t) : t :=
  mk (Name p) (URL p) v (PublicURL p) (GroupID p) (TLS p)
     (TLSSkipVerify p) (TLSSkipClientVerify p) (TLSCACertFile p)
     (TLSCertFile p) (TLSKeyFile p) (AzureApplicationID p) (AzureTenantID p)
     (AzureAuthenticationKey p) (Tags p).
Definition with_PublicURL (v : string) (p : t) : t :=
  mk (Name p) (URL p) (EndpointType p) v (GroupID p) (TLS p)
     (TLSSkipVerify p) (TLSSkipClientVerify p) (TLSCACertFile p)
     (TLSCertFile p) (TLSKeyFile p) (AzureApplicationID p) (AzureTenantID p)
     (AzureAuthenticationKey p) (Tags p).
Definition with_GroupID (v : Z) (p : t) : t :=
  mk (Name p) (URL p) (EndpointType p) (PublicURL p) v (TLS p)
     (TLSSkipVerify p) (TLSSkipClientVerify p) (TLSCACertFile p)
     (TLSCertFile p) (TLSKeyFile p) (AzureApplicationID p) (AzureTenantID p)
     (AzureAuthenticationKey p) (Tags p).
Definition with_TLS (v : bool) (p : t) : t :=
  mk (Name p) (URL p) (EndpointType p) (PublicURL p) (GroupID p) v
     (TLSSkipVerify p) (TLSSkipClientVerify p) (TLSCACertFile p)
     (TLSCertFile p) (TLSKeyFile p) (AzureApplicationID p) (AzureTenantID p)
     (AzureAuthenticationKey p) (Tags p).
Definition with_TLSSkipVerify (v : bool) (p : t) : t :=
  mk (Name p) (URL p) (EndpointType p) (PublicURL p) (GroupID p) (TLS p)
     v (TLSSkipClientVerify p) (TLSCACertFile p)
     (TLSCertFile p) (TLSKeyFile p) (AzureApplicationID p) (AzureTenantID p)
     (AzureAuthenticationKey p) (Tags p).
Definition with_TLSSkipClientVerify (v : bool) (p : t) : t :=
  mk (Name p) (URL p) (EndpointType p) (PublicURL p) (GroupID p) (TLS p)
     (TLSSkipVerify p) v (TLSCACertFile p)
     (TLSCertFile p) (TLSKeyFile p) (AzureApplicationID p) (AzureTenantID p)
     (AzureAuthenticationKey p) (Tags p).
Definition with_TLSCACertFile (v : bytes) (p : t) : t :=
  mk (Name p) (URL p) (EndpointType p) (PublicURL p) (GroupID p) (TLS p)
     (TLSSkipVerify p) (TLSSkipClientVerify p) v
     (TLSCertFile p) (TLSKeyFile p) (AzureApplicationID p) (AzureTenantID p)
     (AzureAuthenticationKey p) (Tags p).
Definition with_TLSCertFile (v : bytes) (p : t) : t :=
  mk (Name p) (URL p) (EndpointType p) (PublicURL p) (GroupID p) (TLS p)
     (TLSSkipVerify p) (TLSSkipClientVerify p) (TLSCACertFile p)
     v (TLSKeyFile p) (AzureApplicationID p) (AzureTenantID p)
     (AzureAuthenticationKey p) (Tags p).
Definition with_TLSKeyFile (v : bytes) (p : t) : t :=
  mk (Name p) (URL p) (EndpointType p) (PublicURL p) (GroupID p) (TLS p)
     (TLSSkipVerify p) (TLSSkipClientVerify p) (TLSCACertFile p)
     (TLSCertFile p) v (AzureApplicationID p) (AzureTenantID p)
     (AzureAuthenticationKey p) (Tags p).
Definition with_AzureApplicationID (v : string) (p : t) : t :=
  mk (Name p) (URL p) (EndpointType p) (PublicURL p) (GroupID p) (TLS p)
     (TLSSkipVerify p) (TLSSkipClientVerify p) (TLSCACertFile p)
     (TLSCertFile p) (TLSKeyFile p) v (AzureTenantID p)
     (AzureAuthenticationKey p) (Tags p).
Definition with_AzureTenantID (v : string) (p : t) : t :=
  mk (Name p) (URL p) (EndpointType p) (PublicURL p) (GroupID p) (TLS p)
     (TLSSkipVerify p) (TLSSkipClientVerify p) (TLSCACertFile p)
     (TLSCertFile p) (TLSKeyFile p) (AzureApplicationID p) v
     (AzureAuthenticationKey p) (Tags p).
Definition with_AzureAuthenticationKey (v : string) (p : t) : t :=
  mk (Name p) (URL p) (EndpointType p) (PublicURL p) (GroupID p) (TLS p)
     (TLSSkipVerify p) (TLSSkipClientVerify p) (TLSCACertFile p)
     (TLSCertFile p) (TLSKeyFile p) (AzureApplicationID p) (AzureTenantID p)
     v (Tags p).
Definition with_Tags (v : option (list string)) (p : t) : t :=
  mk (Name p) (URL p) (EndpointType p) (PublicURL p) (GroupID p) (TLS p)
     (TLSSkipVerify p) (TLSSkipClientVerify p) (TLSCACertFile p)
     (TLSCertFile p) (TLSKeyFile p) (AzureApplicationID p) (AzureTenantID p)
     (AzureAuthenticationKey p) v.
End endpointCreatePayload.

Module P := endpointCreatePayload.

(** An [*http.Request], seen through the accessors of package [request]
    (an external library) that [Validate] calls on it.  Each accessor takes the form field's name
    (and, where it has one, its [optional] flag) and gives the value and the
    error the Go function returns for this request.  For
    [RetrieveMultiPartFormJSONValue] the value is the content of the
    [[]string] target after the call, which [Validate] passes in as nil. *)
Record Request := mkRequest {
  RetrieveMultiPartFormValue : string -> bool -> string * option error;
  RetrieveNumericMultiPartFormValue : string -> bool -> Z * option error;
  RetrieveBooleanMultiPartFormValue : string -> bool -> bool * option error;
  RetrieveMultiPartFormJSONValue :
    string -> bool -> option (list string) * option error;
  RetrieveMultiPartFormFile : string -> bytes * string * option error
}.

(** [portainer.Error(msg)]. *)
Definition portainer_Error (msg : string) : error := msg.

Definition ErrInvalidEndpointType : error :=
  portainer_Error "Invalid endpoint type value. Value must be one of: 1 (Docker environment), 2 (Agent environment), 3 (Azure environment) or 4 (Edge Agent environment)".

(** The TLS part of [Validate] (the body of [if payload.TLS]). *)
Definition validateTLS (r : Request) (payload : P.t) : P.t * option error :=
  let '(skipTLSServerVerification, _) :=
    RetrieveBooleanMultiPartFormValue r "TLSSkipVerify" true in
  let payload := P.with_TLSSkipVerify skipTLSServerVerification payload in
  let '(skipTLSClientVerification, _) :=
    RetrieveBooleanMultiPartFormValue r "TLSSkipClientVerify" true in
  let payload := P.with_TLSSkipClientVerify skipTLSClientVerification payload in
  let caStep :=
    if negb (P.TLSSkipVerify payload) then
      let '(caCert, _, err) := RetrieveMultiPartFormFile r "TLSCACertFile" in
      match err with
      | Some _ => (payload, Some (portainer_Error "Invalid CA certificate file. Ensure that the file is uploaded correctly"))
      | None => (P.with_TLSCACertFile caCert payload, None)
      end
    else (payload, None) in
  match caStep with
  | (payload, Some e) => (payload, Some e)
  | (payload, None) =>
      if negb (P.TLSSkipClientVerify payload) then
        let '(cert, _, err) := RetrieveMultiPartFormFile r "TLSCertFile" in
        match err with
        | Some _ => (payload, Some (portainer_Error "Invalid certificate file. Ensure that the file is uploaded correctly"))
        | None =>
            let payload := P.with_TLSCertFile cert payload in
            let '(key, _, err) := RetrieveMultiPartFormFile r "TLSKeyFile" in
            match err with
            | Some _ => (payload, Some (portainer_Error "Invalid key file. Ensure that the file is uploaded correctly"))
            | None => (P.with_TLSKeyFile key payload, None)
            end
        end
      else (payload, None)
  end.

(** The final [switch portainer.EndpointType(payload.EndpointType)] of
    [Validate]. *)
Definition validateByType (r : Request) (payload : P.t) : P.t * option error :=
  if P.EndpointType payload =? AzureEnvironment then
    let '(azureApplicationID, err) :=
      RetrieveMultiPartFormValue r "AzureApplicationID" false in
    match err with
    | Some _ => (payload, Some (portainer_Error "Invalid Azure application ID"))
    | None =>
        let payload := P.with_AzureApplicationID azureApplicationID payload in
        let '(azureTenantID, err) :=
          RetrieveMultiPartFormValue r "AzureTenantID" false in
        match err with
        | Some _ => (payload, Some (portainer_Error "Invalid Azure tenant ID"))
        | None =>
            let payload := P.with_AzureTenantID azureTenantID payload in
            let '(azureAuthenticationKey, err) :=
              RetrieveMultiPartFormValue r "AzureAuthenticationKey" false in
            match err with
            | Some _ =>
                (payload, Some (portainer_Error "Invalid Azure authentication key"))
            | None =>
                (P.with_AzureAuthenticationKey azureAuthenticationKey payload,
                 None)
            end
        end
    end
  else
    let '(url, err) := RetrieveMultiPartFormValue r "URL" true in
    match err with
    | Some _ => (payload, Some (portainer_Error "Invalid endpoint URL"))
    | None =>
        let payload := P.with_URL url payload in
        let '(publicURL, _) := RetrieveMultiPartFormValue r "PublicURL" true in
        (P.with_PublicURL publicURL payload, None)
    end.

(** [(payload *endpointCreatePayload) Validate(r)]: the payload as the
    method leaves it, and the error it returns. *)
Definition Validate (payload : P.t) (r : Request) : P.t * option error :=
  let '(name, err) := RetrieveMultiPartFormValue r "Name" false in
  match err with
  | Some _ => (payload, Some (portainer_Error "Invalid endpoint name"))
  | None =>
      let payload := P.with_Name name payload in
      let '(endpointType, err) :=
        RetrieveNumericMultiPartFormValue r "EndpointType" false in
      if match err with Some _ => true | None => false end
         || (endpointType =? 0)
      then (payload, Some ErrInvalidEndpointType)
      else
        let payload := P.with_EndpointType endpointType payload in
        let '(groupID, _) :=
          RetrieveNumericMultiPartFormValue r "GroupID" true in
        let groupID := if groupID =? 0 then 1 else groupID in
        let payload := P.with_GroupID groupID payload in
        let '(tags, err) := RetrieveMultiPartFormJSONValue r "Tags" true in
        match err with
        | Some _ => (payload, Some (portainer_Error "Invalid Tags parameter"))
        | None =>
            let payload := P.with_Tags tags payload in
            let payload :=
              match P.Tags payload with
              | None => P.with_Tags (Some []) payload
              | Some _ => payload
              end in
            let '(useTLS, _) :=
              RetrieveBooleanMultiPartFormValue r "TLS" true in
            let payload := P.with_TLS useTLS payload in
            let tlsStep :=
              if P.TLS payload then validateTLS r payload
              else (payload, None) in
            match tlsStep with
            | (payload, Some e) => (payload, Some e)
            | (payload, None) => validateByType r payload
            end
        end
  end.

(** ** Collaborators and state *)

(** What the handler uses from outside its package and is not a field of
    the handler: the platform name, the process-wide random source (its
    [k]-th draw for a bound [n]), JSON serialisation of the Edge key, the
    TLS configuration builder of package [crypto] and the HTTP client of
    package [client]. *)
Record Runtime := mkRuntime {
  GOOS : string;
  rand_Intn : nat -> Z -> Z;
  json_Marshal : EdgeKey.t -> bytes * option error;
  crypto_CreateTLSConfigurationFromBytes :
    bytes -> bytes -> bytes -> bool -> bool -> option tls_Config * option error;
  client_ExecuteAzureAuthenticationRequest : AzureCredentials.t -> option error;
  client_ExecutePingOperation :
    string -> option tls_Config -> bool * option error
}.

(** The fields of [Handler] the registration reads; the three services
    answer as functions of their arguments.  [EndpointService_CreateEndpoint]
    gives the error of the database write, [None] when it succeeds. *)
Record Handler := mkHandler {
  authorizeEndpointManagement : bool;
  TunnelServerFingerprint : string;
  Snapshotter_CreateSnapshot : Endpoint.t -> option Snapshot * option error;
  FileService_StoreTLSFileFromBytes :
    string -> TLSFileType -> bytes -> string * option error;
  EndpointService_CreateEndpoint : Endpoint.t -> option error
}.

(** A call that leaves the handler's process. *)
Inductive Event :=
| AzureAuthenticationRequest (credentials : AzureCredentials.t)
| PingOperation (url : string) (tlsConfig : option tls_Config)
| NextIdentifier (id : Z)
| SnapshotAttempt (endpoint : Endpoint.t)
| EndpointWrite (endpoint : Endpoint.t)
| TLSFileWrite (folder : string) (fileType : TLSFileType) (data : bytes)
| LogEntry (msg : string).

(** The state shared by the requests: the identifier allocator, the
    persisted environment records (oldest first), the TLS artifacts on disk,
    the number of draws made on the random source, and the calls made. *)
Record State := mkState {
  nextIdentifier : Z;
  endpoints : list Endpoint.t;
  tlsFiles : list (string * TLSFileType * bytes * string);
  randDraws : nat;
  trace : list Event
}.

Definition emit (ev : Event) (st : State) : State :=
  mkState (nextIdentifier st) (endpoints st) (tlsFiles st) (randDraws st)
          (trace st ++ [ev]).

(** State-passing computations. *)
Definition M (A : Type) : Type := State -> A * State.
Definition ret {A} (a : A) : M A := fun st => (a, st).
Definition bind {A B} (m : M A) (k : A -> M B) : M B :=
  fun st => let '(a, st') := m st in k a st'.

Notation "x <- m ;; k" := (bind m (fun x => k))
  (at level 61, m at next level, right associativity).
Notation "' pat <- m ;; k" := (bind m (fun x => match x with pat => k end))
  (at level 61, pat pattern, m at next level, right associativity).

Definition is_PingOperation (ev : Event) : bool :=
  match ev with PingOperation _ _ => true | _ => false end.
Definition is_NextIdentifier (ev : Event) : bool :=
  match ev with NextIdentifier _ => true | _ => false end.

Section Operations.
Variable rt : Runtime.
Variable handler : Handler.

(** The calls to the collaborators: each gives the collaborator's answer
    and records the call in the trace. *)
Definition ExecuteAzureAuthenticationRequest
    (credentials : AzureCredentials.t) : M (option error) :=
  fun st =>
    (client_ExecuteAzureAuthenticationRequest rt credentials,
     emit (AzureAuthenticationRequest credentials) st).

Definition ExecutePingOperation (url : string) (tlsConfig : option tls_Config)
    : M (bool * option error) :=
  fun st =>
    (client_ExecutePingOperation rt url tlsConfig,
     emit (PingOperation url tlsConfig) st).

(** Modelled from the spec: [EndpointService.GetNextIdentifier], whose
    implementation is not part of the sources.  The allocator is a single
    next-id source that hands out its current value and moves on by one, so
    that identifiers are monotonically assigned and never reused. *)
Definition GetNextIdentifier : M Z :=
  fun st =>
    let id := nextIdentifier st in
    (id, emit (NextIdentifier id)
           (mkState (id + 1) (endpoints st) (tlsFiles st) (randDraws st)
                    (trace st))).

(** Modelled from the spec: [EndpointService.CreateEndpoint], a method of
    the persistence collaborator whose implementation is not part of the
    sources.  The write answers with the handler's
    [EndpointService_CreateEndpoint]; the record is persisted when it
    reports no error, and nothing is when it reports one. *)
Definition CreateEndpoint (endpoint : Endpoint.t) : M (option error) :=
  fun st =>
    let err := EndpointService_CreateEndpoint handler endpoint in
    (err,
     emit (EndpointWrite endpoint)
       (mkState (nextIdentifier st)
          (match err with
           | Some _ => endpoints st
           | None => endpoints st ++ [endpoint]
           end)
          (tlsFiles st) (randDraws st) (trace st))).

(** [Snapshotter.CreateSnapshot]: the snapshot (nil-able) and the error. *)
Definition CreateSnapshot (endpoint : Endpoint.t)
    : M (option Snapshot * option error) :=
  fun st =>
    (Snapshotter_CreateSnapshot handler endpoint,
     emit (SnapshotAttempt endpoint) st).

(** Modelled from the spec: [FileService.StoreTLSFileFromBytes], a method
    of the artifact store whose implementation is not part of the sources.
    The artifact is on disk, under the path returned, when the call reports
    no error. *)
Definition StoreTLSFileFromBytes (folder : string) (fileType : TLSFileType)
    (data : bytes) : M (string * option error) :=
  fun st =>
    let res := FileService_StoreTLSFileFromBytes handler folder fileType data in
    (res,
     emit (TLSFileWrite folder fileType data)
       (mkState (nextIdentifier st) (endpoints st)
          (match snd res with
           | Some _ => tlsFiles st
           | None => tlsFiles st ++ [(folder, fileType, data, fst res)]
           end)
          (randDraws st) (trace st))).

(** [log.Printf], the diagnostic log. *)
Definition log_Printf (msg : string) : M unit :=
  fun st => (tt, emit (LogEntry msg) st).

(** [rand.Intn(n)] on the process-wide source. *)
Definition Intn (n : Z) : M Z :=
  fun st =>
    (rand_Intn rt (randDraws st) n,
     mkState (nextIdentifier st) (endpoints st) (tlsFiles st)
             (S (randDraws st)) (trace st)).

(** [randomInt(min, max)]. *)
Definition randomInt (min max : Z) : M Z :=
  r <- Intn (max - min) ;;
  ret (min + r).

Definition Result : Type := option Endpoint.t * option HandlerError.t.

(** ** The creation paths *)

Definition createAzureEndpoint (payload : P.t) : M Result :=
  let credentials :=
    AzureCredentials.mk (P.AzureApplicationID payload)
      (P.AzureTenantID payload) (P.AzureAuthenticationKey payload) in
  err <- ExecuteAzureAuthenticationRequest credentials ;;
  match err with
  | Some err =>
      ret (None, Some (HandlerError.mk StatusInternalServerError
                         "Unable to authenticate against Azure" err))
  | None =>
      endpointID <- GetNextIdentifier ;;
      let endpoint :=
        Endpoint.mk endpointID (P.Name payload) "https://management.azure.com"
          AzureEnvironment (P.GroupID payload) (P.PublicURL payload)
          TLSConfiguration.zero credentials (P.Tags payload)
          EndpointStatusUp [] "" in
      err <- CreateEndpoint endpoint ;;
      match err with
      | Some err =>
          ret (None, Some (HandlerError.mk StatusInternalServerError
                 "Unable to persist endpoint inside the database" err))
      | None => ret (Some endpoint, None)
      end
  end.

(** The Edge key record and port of [createEdgeAgentEndpoint]. *)
Definition edgeKeyRecord (payload : P.t) (portnumber : Z) : EdgeKey.t :=
  EdgeKey.mk (TrimPrefix (P.URL payload) "tcp://") "8000" (Itoa portnumber)
    (TunnelServerFingerprint handler) "agent@randomstring".

Definition createEdgeAgentEndpoint (payload : P.t) : M Result :=
  let endpointType := EdgeAgentEnvironment in
  endpointID <- GetNextIdentifier ;;
  portnumber <- randomInt 49152 65535 ;;
  let key := edgeKeyRecord payload portnumber in
  let '(marshaledKey, err) := json_Marshal rt key in
  match err with
  | Some err =>
      ret (None, Some (HandlerError.mk StatusInternalServerError
                         "Unable to encode Edge key" err))
  | None =>
      let keyHash := HashFromBytes marshaledKey in
      let encodedKey := RawStdEncoding_EncodeToString keyHash in
      let endpoint :=
        Endpoint.mk endpointID (P.Name payload)
          ("tcp://localhost:" ++ Itoa portnumber) endpointType
          (P.GroupID payload) ""
          (TLSConfiguration.mk false false "" "" "")
          AzureCredentials.zero (P.Tags payload) EndpointStatusUp []
          encodedKey in
      err <- CreateEndpoint endpoint ;;
      match err with
      | Some err =>
          ret (None, Some (HandlerError.mk StatusInternalServerError
                 "Unable to persist endpoint inside the database" err))
      | None => ret (Some endpoint, None)
      end
  end.

(** [snapshotAndPersistEndpoint(endpoint)]: the endpoint as the method
    leaves it behind the pointer, and the error returned. *)
Definition snapshotAndPersistEndpoint (endpoint : Endpoint.t)
    : M (Endpoint.t * option HandlerError.t) :=
  '(snapshot, err) <- CreateSnapshot endpoint ;;
  let endpoint := Endpoint.with_Status EndpointStatusUp endpoint in
  endpoint <-
    match err with
    | Some err =>
        _ <- log_Printf
               ("http error: endpoint snapshot error (endpoint="
                ++ Endpoint.Name endpoint ++ ", URL=" ++ Endpoint.URL endpoint
                ++ ") (err=" ++ err ++ ")" ++ String "010"%char "") ;;
        ret (Endpoint.with_Status EndpointStatusDown endpoint)
    | None => ret endpoint
    end ;;
  let endpoint :=
    match snapshot with
    | Some snapshot => Endpoint.with_Snapshots [snapshot] endpoint
    | None => endpoint
    end in
  err <- CreateEndpoint endpoint ;;
  match err with
  | Some err =>
      ret (endpoint,
           Some (HandlerError.mk StatusInternalServerError
                   "Unable to persist endpoint inside the database" err))
  | None => ret (endpoint, None)
  end.

Definition with_TLSCACertPath (path : string) (e : Endpoint.t) : Endpoint.t :=
  let c := Endpoint.TLSConfig e in
  Endpoint.with_TLSConfig
    (TLSConfiguration.mk (TLSConfiguration.TLS c)
       (TLSConfiguration.TLSSkipVerify c) path
       (TLSConfiguration.TLSCertPath c) (TLSConfiguration.TLSKeyPath c)) e.
Definition with_TLSCertPath (path : string) (e : Endpoint.t) : Endpoint.t :=
  let c := Endpoint.TLSConfig e in
  Endpoint.with_TLSConfig
    (TLSConfiguration.mk (TLSConfiguration.TLS c)
       (TLSConfiguration.TLSSkipVerify c) (TLSConfiguration.TLSCACertPath c)
       path (TLSConfiguration.TLSKeyPath c)) e.
Definition with_TLSKeyPath (path : string) (e : Endpoint.t) : Endpoint.t :=
  let c := Endpoint.TLSConfig e in
  Endpoint.with_TLSConfig
    (TLSConfiguration.mk (TLSConfiguration.TLS c)
       (TLSConfiguration.TLSSkipVerify c) (TLSConfiguration.TLSCACertPath c)
       (TLSConfiguration.TLSCertPath c) path) e.

(** The client-certificate part of [storeTLSFiles]. *)
Definition storeClientFiles (folder : string) (endpoint : Endpoint.t)
    (payload : P.t) : M (Endpoint.t * option HandlerError.t) :=
  if negb (P.TLSSkipClientVerify payload) then
    '(certPath, err) <-
      StoreTLSFileFromBytes folder TLSFileCert (P.TLSCertFile payload) ;;
    match err with
    | Some err =>
        ret (endpoint,
             Some (HandlerError.mk StatusInternalServerError
                     "Unable to persist TLS certificate file on disk" err))
    | None =>
        let endpoint := with_TLSCertPath certPath endpoint in
        '(keyPath, err) <-
          StoreTLSFileFromBytes folder TLSFileKey (P.TLSKeyFile payload) ;;
        match err with
        | Some err =>
            ret (endpoint,
                 Some (HandlerError.mk StatusInternalServerError
                         "Unable to persist TLS key file on disk" err))
        | None => ret (with_TLSKeyPath keyPath endpoint, None)
        end
    end
  else ret (endpoint, None).

(** [storeTLSFiles(endpoint, payload)]: the endpoint as the method leaves
    it behind the pointer, and the error returned. *)
Definition storeTLSFiles (endpoint : Endpoint.t) (payload : P.t)
    : M (Endpoint.t * option HandlerError.t) :=
  let folder := Itoa (Endpoint.ID endpoint) in
  if negb (P.TLSSkipVerify payload) then
    '(caCertPath, err) <-
      StoreTLSFileFromBytes folder TLSFileCA (P.TLSCACertFile payload) ;;
    match err with
    | Some err =>
        ret (endpoint,
             Some (HandlerError.mk StatusInternalServerError
                     "Unable to persist TLS CA certificate file on disk" err))
    | None =>
        storeClientFiles folder (with_TLSCACertPath caCertPath endpoint) payload
    end
  else storeClientFiles folder endpoint payload.

(** The tail of [createUnsecuredEndpoint], from the identifier on: both
    branches of the test on [payload.URL] fall through to it. *)
Definition persistUnsecuredEndpoint (payload : P.t)
    (endpointType : EndpointType) : M Result :=
  endpointID <- GetNextIdentifier ;;
  let endpoint :=
    Endpoint.mk endpointID (P.Name payload) (P.URL payload) endpointType
      (P.GroupID payload) (P.PublicURL payload)
      (TLSConfiguration.mk false false "" "" "")
      AzureCredentials.zero (P.Tags payload) EndpointStatusUp [] "" in
  '(endpoint, err) <- snapshotAndPersistEndpoint endpoint ;;
  match err with
  | Some err => ret (None, Some err)
  | None => ret (Some endpoint, None)
  end.

Definition createUnsecuredEndpoint (payload : P.t) : M Result :=
  let endpointType := DockerEnvironment in
  if String.eqb (P.URL payload) "" then
    let payload := P.with_URL "unix:///var/run/docker.sock" payload in
    let payload :=
      if String.eqb (GOOS rt) "windows"
      then P.with_URL "npipe:////./pipe/docker_engine" payload
      else payload in
    persistUnsecuredEndpoint payload endpointType
  else
    '(agentOnDockerEnvironment, err) <-
      ExecutePingOperation (P.URL payload) None ;;
    match err with
    | Some err =>
        ret (None, Some (HandlerError.mk StatusInternalServerError
                           "Unable to ping Docker environment" err))
    | None =>
        persistUnsecuredEndpoint payload
          (if agentOnDockerEnvironment then AgentOnDockerEnvironment
           else endpointType)
    end.

Definition createTLSSecuredEndpoint (payload : P.t) : M Result :=
  let '(tlsConfig, err) :=
    crypto_CreateTLSConfigurationFromBytes rt (P.TLSCACertFile payload)
      (P.TLSCertFile payload) (P.TLSKeyFile payload)
      (P.TLSSkipClientVerify payload) (P.TLSSkipVerify payload) in
  match err with
  | Some err =>
      ret (None, Some (HandlerError.mk StatusInternalServerError
                         "Unable to create TLS configuration" err))
  | None =>
      '(agentOnDockerEnvironment, err) <-
        ExecutePingOperation (P.URL payload) tlsConfig ;;
      match err with
      | Some err =>
          ret (None, Some (HandlerError.mk StatusInternalServerError
                             "Unable to ping Docker environment" err))
      | None =>
          let endpointType :=
            if agentOnDockerEnvironment then AgentOnDockerEnvironment
            else DockerEnvironment in
          endpointID <- GetNextIdentifier ;;
          let endpoint :=
            Endpoint.mk endpointID (P.Name payload) (P.URL payload)
              endpointType (P.GroupID payload) (P.PublicURL payload)
              (TLSConfiguration.mk (P.TLS payload) (P.TLSSkipVerify payload)
                 "" "" "")
              AzureCredentials.zero (P.Tags payload) EndpointStatusUp [] "" in
          '(endpoint, filesystemError) <- storeTLSFiles endpoint payload ;;
          (* [if err != nil]: the test is on [err], the error of the ping,
             not on [filesystemError]. *)
          match err with
          | Some _ => ret (None, filesystemError)
          | None =>
              '(endpoint, endpointCreationError) <-
                snapshotAndPersistEndpoint endpoint ;;
              match endpointCreationError with
              | Some e => ret (None, Some e)
              | None => ret (Some endpoint, None)
              end
          end
      end
  end.

Definition createEndpoint (payload : P.t) : M Result :=
  if P.EndpointType payload =? AzureEnvironment then
    createAzureEndpoint payload
  else if P.EndpointType payload =? EdgeAgentEnvironment then
    createEdgeAgentEndpoint payload
  else if P.TLS payload then createTLSSecuredEndpoint payload
  else createUnsecuredEndpoint payload.

Definition ErrEndpointManagementDisabled : error :=
  "Endpoint management is disabled".

(** [endpointCreate(w, r)], POST on /api/endpoints: the endpoint written as
    the JSON body of the response, or the error handed to the HTTP layer. *)
Definition endpointCreate (r : Request) : M Result :=
  if negb (authorizeEndpointManagement handler) then
    ret (None, Some (HandlerError.mk StatusServiceUnavailable
                       "Endpoint management is disabled"
                       ErrEndpointManagementDisabled))
  else
    let '(payload, err) := Validate P.zero r in
    match err with
    | Some err =>
        ret (None, Some (HandlerError.mk StatusBadRequest
                           "Invalid request payload" err))
    | None => createEndpoint payload
    end.

End Operations.

(** * Specification vocabulary *)

(** What a creation path leaves behind for a payload: either nothing is
    returned and the persisted records are as before, or one endpoint is
    returned without error and it is the one record added. *)
Definition persistsAtMostOne (payload : P.t) (st : State)
    (out : Result * State) : Prop :=
  match fst (fst out) with
  | None => endpoints (snd out) = endpoints st
  | Some ep =>
      snd (fst out) = None
      /\ endpoints (snd out) = (endpoints st ++ [ep])%list
      /\ Endpoint.Tags ep = P.Tags payload
  end.


(** A registration is an Azure one or an EdgeAgent one by its type code;
    any other type code makes it a Docker one, TLS-secured when the TLS flag
    is set and unsecured otherwise.  This is the dispatch of
    [createEndpoint]. *)
Definition isAzure (payload : P.t) : bool :=
  P.EndpointType payload =? AzureEnvironment.
Definition isEdgeAgent (payload : P.t) : bool :=
  negb (isAzure payload) && (P.EndpointType payload =? EdgeAgentEnvironment).
Definition isDocker (payload : P.t) : bool :=
  negb (P.EndpointType payload =? AzureEnvironment)
  && negb (P.EndpointType payload =? EdgeAgentEnvironment).
Definition isUnsecuredDocker (payload : P.t) : bool :=
  isDocker payload && negb (P.TLS payload).
Definition isTLSSecuredDocker (payload : P.t) : bool :=
  isDocker payload && P.TLS payload.

(** The four recognized type codes. *)
Definition recognizedType (code : Z) : bool :=
  (code =? DockerEnvironment) || (code =? AgentOnDockerEnvironment)
  || (code =? AzureEnvironment) || (code =? EdgeAgentEnvironment).

(** The contract of [rand.Intn]: a number of the half-open interval
    [[0, n)] for a positive [n]. *)
Definition IntnContract (rt : Runtime) : Prop :=
  forall (k : nat) (n : Z), 0 < n -> 0 <= rand_Intn rt k n < n.

(** The port [createEdgeAgentEndpoint] draws when it starts in [st]. *)
Definition edgePort (rt : Runtime) (st : State) : Z :=
  49152 + rand_Intn rt (randDraws st) (65535 - 49152).

(** The local engine socket of the platform. *)
Definition localEngineSocket (rt : Runtime) : string :=
  if String.eqb (GOOS rt) "windows" then "npipe:////./pipe/docker_engine"
  else "unix:///var/run/docker.sock".

(** The calls of a trace that are connectivity probes, and those that take
    an identifier from the allocator. *)
Definition pings (tr : list Event) : list Event := filter is_PingOperation tr.
Definition identifiersTaken (tr : list Event) : list Event :=
  filter is_NextIdentifier tr.

(** The credentials [createAzureEndpoint] authenticates with. *)
Definition azureCredentials (payload : P.t) : AzureCredentials.t :=
  AzureCredentials.mk (P.AzureApplicationID payload) (P.AzureTenantID payload)
    (P.AzureAuthenticationKey payload).

(** The TLS configuration [createTLSSecuredEndpoint] builds, with the error
    of building it. *)
Definition tlsConfiguration (rt : Runtime) (payload : P.t)
    : option tls_Config * option error :=
  crypto_CreateTLSConfigurationFromBytes rt (P.TLSCACertFile payload)
    (P.TLSCertFile payload) (P.TLSKeyFile payload)
    (P.TLSSkipClientVerify payload) (P.TLSSkipVerify payload).

(** ** Scenarios

    Concrete requests, collaborators and states on which the handler is
    evaluated. *)

(** A multi-part form: text values by field name (the empty string when a
    field is absent), what the numeric accessor gives by field name, the
    boolean flags, the outcome of decoding [Tags], and the uploaded files. *)
Definition formRequest (values : string -> string)
    (numbers : string -> Z * option error) (flags : string -> bool)
    (tags : option (list string) * option error)
    (files : string -> option bytes) : Request :=
  mkRequest
    (fun name optional =>
       let v := values name in
       if String.eqb v "" && negb optional
       then ("", Some "request missing form data value")
       else (v, None))
    (fun name _ => numbers name)
    (fun name _ => (flags name, None))
    (fun _ _ => tags)
    (fun name =>
       match files name with
       | Some data => (data, name, None)
       | None => ([], "", Some "http: no such file")
       end).

Definition noNumber : Z * option error := (0, Some "strconv.Atoi: invalid syntax").

(** [{Name:"prod1", EndpointType:<code>, URL:<url>, TLS:<tls>}], no [Tags]
    field, and three uploaded TLS files. *)
Definition dockerRequest (code : Z) (url : string) (tls : bool) : Request :=
  formRequest
    (fun name => if String.eqb name "Name" then "prod1"
                 else if String.eqb name "URL" then url else "")
    (fun name => if String.eqb name "EndpointType" then (code, None)
                 else noNumber)
    (fun name => String.eqb name "TLS" && tls)
    (None, None)
    (fun name =>
       if String.eqb name "TLSCACertFile" then Some ["c"%byte; "a"%byte]
       else if String.eqb name "TLSCertFile" then Some ["c"%byte; "r"%byte]
       else if String.eqb name "TLSKeyFile" then Some ["k"%byte]
       else None).

(** The same unsecured request with a [Tags] field that does not decode. *)
Definition badTagsRequest : Request :=
  formRequest
    (fun name => if String.eqb name "Name" then "prod1"
                 else if String.eqb name "Tags" then "[oops" else "")
    (fun name => if String.eqb name "EndpointType" then (1, None)
                 else noNumber)
    (fun _ => false)
    (None, Some "invalid character 'o' looking for beginning of value")
    (fun _ => None).

(** [{Name:"cloud1", EndpointType:3, AzureApplicationID:"x",
    AzureTenantID:"y", AzureAuthenticationKey:"z", URL:<url>}]. *)
Definition azureRequest (url : string) : Request :=
  formRequest
    (fun name => if String.eqb name "Name" then "cloud1"
                 else if String.eqb name "AzureApplicationID" then "x"
                 else if String.eqb name "AzureTenantID" then "y"
                 else if String.eqb name "AzureAuthenticationKey" then "z"
                 else if String.eqb name "URL" then url else "")
    (fun name => if String.eqb name "EndpointType" then (3, None)
                 else noNumber)
    (fun _ => false)
    (None, None)
    (fun _ => None).

(** The payloads [Validate] builds from these requests. *)
Definition dockerPayload (code : Z) (url : string) (tls : bool) : P.t :=
  fst (Validate P.zero (dockerRequest code url tls)).
Definition azurePayload : P.t :=
  fst (Validate P.zero (azureRequest "tcp://10.0.0.9:2375")).

(** A runtime on Linux, given the answers of the probe, of the Azure
    authentication and of the TLS configuration builder.  The Edge key is
    serialised field after field. *)
Definition sampleRuntime (ping : bool * option error)
    (azure : option error) (tls : option tls_Config * option error)
    : Runtime :=
  mkRuntime "linux"
    (fun k n => (4242 + Z.of_nat k) mod n)
    (fun key =>
       (list_byte_of_string
          (EdgeKey.TunnelServerAddr key ++ ":" ++ EdgeKey.TunnelServerPort key
           ++ ":" ++ EdgeKey.TunnelPort key ++ ":"
           ++ EdgeKey.TunnelServerFingerprint key ++ ":"
           ++ EdgeKey.Credentials key),
        None))
    (fun _ _ _ _ _ => tls)
    (fun _ => azure)
    (fun _ _ => ping).

Definition reachable : Runtime :=
  sampleRuntime (false, None) None (Some (mkTLSHandle 1), None).
Definition unreachable : Runtime :=
  sampleRuntime (false, Some "dial tcp 10.0.0.5:2375: i/o timeout")
    (Some "azure: authentication rejected") (Some (mkTLSHandle 1), None).
Definition badCertificate : Runtime :=
  sampleRuntime (false, None) None
    (None, Some "tls: failed to find any PEM data in certificate input").

(** A handler, given the answers of the snapshotter, of the file service by
    artifact kind, and of the database write. *)
Definition sampleHandler (snapshot : option Snapshot * option error)
    (store : TLSFileType -> option error) (db : option error) : Handler :=
  mkHandler true "fingerprint"
    (fun _ => snapshot)
    (fun folder fileType _ =>
       ("/data/tls/" ++ folder ++
        match fileType with
        | TLSFileCA => "/ca.pem"
        | TLSFileCert => "/cert.pem"
        | TLSFileKey => "/key.pem"
        end,
        store fileType))
    (fun _ => db).

Definition healthy : Handler :=
  sampleHandler (Some (mkSnapshot 1700000000), None) (fun _ => None) None.
Definition snapshotFails : Handler :=
  sampleHandler (None, Some "snapshot: connection refused") (fun _ => None)
    None.
(** The file service stores the CA certificate and fails on the
    certificate. *)
Definition diskFull : Handler :=
  sampleHandler (Some (mkSnapshot 1700000000), None)
    (fun fileType =>
       match fileType with
       | TLSFileCA => None
       | _ => Some "write /data/tls/1/cert.pem: no space left on device"
       end)
    None.

(** An empty inventory whose allocator is at 1. *)
Definition emptyState : State := mkState 1 [] [] 0 [].


(** ** Calls of one request *)

(** The calls a computation made, from the state it started in to the state
    it ended in: the trace after, less the trace before. *)
Definition newCalls (st st' : State) : list Event :=
  skipn (List.length (trace st)) (trace st').

Definition is_EndpointWrite (ev : Event) : bool :=
  match ev with EndpointWrite _ => true | _ => false end.
Definition is_SnapshotAttempt (ev : Event) : bool :=
  match ev with SnapshotAttempt _ => true | _ => false end.
Definition is_LogEntry (ev : Event) : bool :=
  match ev with LogEntry _ => true | _ => false end.
Definition is_TLSFileWrite (ev : Event) : bool :=
  match ev with TLSFileWrite _ _ _ => true | _ => false end.

(** A probe is a ping or an Azure authentication request. *)
Definition is_probe (ev : Event) : bool :=
  match ev with
  | AzureAuthenticationRequest _ | PingOperation _ _ => true
  | _ => false
  end.

(** The calls made before the first identifier is taken, and those made
    after it. *)
Fixpoint beforeIdentifier (calls : list Event) : list Event :=
  match calls with
  | [] => []
  | ev :: rest =>
      if is_NextIdentifier ev then [] else ev :: beforeIdentifier rest
  end.
Fixpoint afterIdentifier (calls : list Event) : list Event :=
  match calls with
  | [] => []
  | ev :: rest => if is_NextIdentifier ev then rest else afterIdentifier rest
  end.

(** The messages of the errors [Validate] returns. *)
Definition validationMessages : list error :=
  [ portainer_Error "Invalid endpoint name";
    ErrInvalidEndpointType;
    portainer_Error "Invalid Tags parameter";
    portainer_Error "Invalid CA certificate file. Ensure that the file is uploaded correctly";
    portainer_Error "Invalid certificate file. Ensure that the file is uploaded correctly";
    portainer_Error "Invalid key file. Ensure that the file is uploaded correctly";
    portainer_Error "Invalid Azure application ID";
    portainer_Error "Invalid Azure tenant ID";
    portainer_Error "Invalid Azure authentication key";
    portainer_Error "Invalid endpoint URL" ].

(** The TLS files [storeTLSFiles] has to store for a payload, in the order
    it stores them: the kind and the content of each. *)
Definition tlsFilesToStore (payload : P.t) : list (TLSFileType * bytes) :=
  ((if P.TLSSkipVerify payload then []
    else [(TLSFileCA, P.TLSCACertFile payload)])
   ++ (if P.TLSSkipClientVerify payload then []
       else [(TLSFileCert, P.TLSCertFile payload);
             (TLSFileKey, P.TLSKeyFile payload)]))%list.

(** The type a ping gives a Docker environment. *)
Definition dockerType (agentOnDockerEnvironment : bool) : EndpointType :=
  if agentOnDockerEnvironment then AgentOnDockerEnvironment
  else DockerEnvironment.

(** More scenarios. *)

(** A runtime that cannot serialise the Edge key. *)
Definition cannotMarshal : Runtime :=
  mkRuntime "linux"
    (fun k n => (4242 + Z.of_nat k) mod n)
    (fun _ => ([], Some "json: unsupported value"))
    (fun _ _ _ _ _ => (Some (mkTLSHandle 1), None))
    (fun _ => None)
    (fun _ _ => (false, None)).

(** A runtime whose probe finds an agent in front of the engine. *)
Definition agentFronted : Runtime :=
  sampleRuntime (true, None) None (Some (mkTLSHandle 1), None).

(** A handler whose database refuses every write. *)
Definition databaseDown : Handler :=
  sampleHandler (Some (mkSnapshot 1700000000), None) (fun _ => None)
    (Some "bolt: database not open").

(** A handler on which endpoint management is disabled. *)
Definition managementDisabled : Handler :=
  mkHandler false "fingerprint"
    (fun _ => (Some (mkSnapshot 1700000000), None))
    (fun _ _ _ => ("", None))
    (fun _ => None).

(** A TLS request with the given skip flags: [{Name:"prod1",
    EndpointType:1, URL:"tcp://10.0.0.5:2376", TLS:true,
    TLSSkipVerify:<skipServer>, TLSSkipClientVerify:<skipClient>,
    GroupID:7}] with the three files uploaded. *)
Definition tlsRequest (skipServer skipClient : bool) : Request :=
  formRequest
    (fun name => if String.eqb name "Name" then "prod1"
                 else if String.eqb name "URL" then "tcp://10.0.0.5:2376"
                 else if String.eqb name "PublicURL" then "docker.example.com"
                 else "")
    (fun name => if String.eqb name "EndpointType" then (1, None)
                 else if String.eqb name "GroupID" then (7, None)
                 else noNumber)
    (fun name => String.eqb name "TLS"
                 || (String.eqb name "TLSSkipVerify" && skipServer)
                 || (String.eqb name "TLSSkipClientVerify" && skipClient))
    (Some ["production"; "eu"], None)
    (fun name =>
       if String.eqb name "TLSCACertFile" then Some ["c"%byte; "a"%byte]
       else if String.eqb name "TLSCertFile" then Some ["c"%byte; "r"%byte]
       else if String.eqb name "TLSKeyFile" then Some ["k"%byte]
       else None).
Definition tlsPayload (skipServer skipClient : bool) : P.t :=
  fst (Validate P.zero (tlsRequest skipServer skipClient)).

(** An Edge request that also carries a public URL. *)
Definition edgeRequest : Request :=
  formRequest
    (fun name => if String.eqb name "Name" then "edge1"
                 else if String.eqb name "URL" then "tcp://portainer.example.com"
                 else if String.eqb name "PublicURL" then "edge.example.com"
                 else "")
    (fun name => if String.eqb name "EndpointType" then (4, None)
                 else noNumber)
    (fun _ => false)
    (None, None)
    (fun _ => None).
Definition edgePayload : P.t := fst (Validate P.zero edgeRequest).

(** The call that stores a TLS file of an endpoint's folder, the path the
    file service gives it, and the record of the file once on disk. *)
Definition storeCall (folder : string) (f : TLSFileType * bytes) : Event :=
  TLSFileWrite folder (fst f) (snd f).
Definition storedPath (handler : Handler) (folder : string)
    (f : TLSFileType * bytes) : string :=
  fst (FileService_StoreTLSFileFromBytes handler folder (fst f) (snd f)).
Definition storedFile (handler : Handler) (folder : string)
    (f : TLSFileType * bytes) : string * TLSFileType * bytes * string :=
  (folder, fst f, snd f, storedPath handler folder f).
Definition storeError (handler : Handler) (folder : string)
    (f : TLSFileType * bytes) : option error :=
  snd (FileService_StoreTLSFileFromBytes handler folder (fst f) (snd f)).

(** The TLS configuration of an endpoint once the files of a payload are
    stored in its folder: the paths of the files that had to be stored, the
    former paths for the others. *)
Definition withStoredPaths (handler : Handler) (folder : string)
    (payload : P.t) (c : TLSConfiguration.t) : TLSConfiguration.t :=
  TLSConfiguration.mk (TLSConfiguration.TLS c)
    (TLSConfiguration.TLSSkipVerify c)
    (if P.TLSSkipVerify payload then TLSConfiguration.TLSCACertPath c
     else storedPath handler folder (TLSFileCA, P.TLSCACertFile payload))
    (if P.TLSSkipClientVerify payload then TLSConfiguration.TLSCertPath c
     else storedPath handler folder (TLSFileCert, P.TLSCertFile payload))
    (if P.TLSSkipClientVerify payload then TLSConfiguration.TLSKeyPath c
     else storedPath handler folder (TLSFileKey, P.TLSKeyFile payload)).

(** The files a list of calls left on disk, oldest first: one for each
    file the file service was given and stored without an error. *)
Definition filesStored (handler : Handler) (calls : list Event)
    : list (string * TLSFileType * bytes * string) :=
  flat_map
    (fun ev =>
       match ev with
       | TLSFileWrite folder fileType data =>
           match storeError handler folder (fileType, data) with
           | Some _ => []
           | None => [storedFile handler folder (fileType, data)]
           end
       | _ => []
       end) calls.

(** ** Valid requests *)

Definition noError (err : option error) : bool :=
  match err with Some _ => false | None => true end.

(** The fields of a request as [Validate] reads them. *)
Definition formName (r : Request) : string :=
  fst (RetrieveMultiPartFormValue r "Name" false).
Definition formType (r : Request) : Z :=
  fst (RetrieveNumericMultiPartFormValue r "EndpointType" false).
Definition formGroupID (r : Request) : Z :=
  let groupID := fst (RetrieveNumericMultiPartFormValue r "GroupID" true) in
  if groupID =? 0 then 1 else groupID.
Definition formTags (r : Request) : list string :=
  match fst (RetrieveMultiPartFormJSONValue r "Tags" true) with
  | Some tags => tags
  | None => []
  end.
Definition formTLS (r : Request) : bool :=
  fst (RetrieveBooleanMultiPartFormValue r "TLS" true).
Definition formSkipVerify (r : Request) : bool :=
  formTLS r && fst (RetrieveBooleanMultiPartFormValue r "TLSSkipVerify" true).
Definition formSkipClientVerify (r : Request) : bool :=
  formTLS r
  && fst (RetrieveBooleanMultiPartFormValue r "TLSSkipClientVerify" true).
Definition formFile (r : Request) (name : string) : bytes :=
  fst (fst (RetrieveMultiPartFormFile r name)).
Definition fileUploaded (r : Request) (name : string) : bool :=
  noError (snd (RetrieveMultiPartFormFile r name)).
Definition formIsAzure (r : Request) : bool := formType r =? AzureEnvironment.

(** The CA certificate is read when TLS is requested and server
    verification is not skipped; the certificate and the key when TLS is
    requested and client verification is not skipped. *)
Definition needsCA (r : Request) : bool :=
  formTLS r && negb (formSkipVerify r).
Definition needsClientFiles (r : Request) : bool :=
  formTLS r && negb (formSkipClientVerify r).

(** The requests [Validate] accepts: a name, a type code that is a number
    other than 0, tags that decode, the TLS files that are needed, and the
    three Azure fields for an Azure request or a URL field that can be read
    for any other. *)
Definition validRequest (r : Request) : bool :=
  noError (snd (RetrieveMultiPartFormValue r "Name" false))
  && noError (snd (RetrieveNumericMultiPartFormValue r "EndpointType" false))
  && negb (formType r =? 0)
  && noError (snd (RetrieveMultiPartFormJSONValue r "Tags" true))
  && (negb (needsCA r) || fileUploaded r "TLSCACertFile")
  && (negb (needsClientFiles r)
      || (fileUploaded r "TLSCertFile" && fileUploaded r "TLSKeyFile"))
  && (if formIsAzure r
      then noError (snd (RetrieveMultiPartFormValue r "AzureApplicationID"
                           false))
           && noError (snd (RetrieveMultiPartFormValue r "AzureTenantID"
                              false))
           && noError (snd (RetrieveMultiPartFormValue r
                              "AzureAuthenticationKey" false))
      else noError (snd (RetrieveMultiPartFormValue r "URL" true))).

(** The payload of an accepted request, field by field. *)
Definition validatedPayload (r : Request) : P.t :=
  P.mk (formName r)
    (if formIsAzure r then ""
     else fst (RetrieveMultiPartFormValue r "URL" true))
    (formType r)
    (if formIsAzure r then ""
     else fst (RetrieveMultiPartFormValue r "PublicURL" true))
    (formGroupID r)
    (formTLS r) (formSkipVerify r) (formSkipClientVerify r)
    (if needsCA r then formFile r "TLSCACertFile" else [])
    (if needsClientFiles r then formFile r "TLSCertFile" else [])
    (if needsClientFiles r then formFile r "TLSKeyFile" else [])
    (if formIsAzure r
     then fst (RetrieveMultiPartFormValue r "AzureApplicationID" false)
     else "")
    (if formIsAzure r
     then fst (RetrieveMultiPartFormValue r "AzureTenantID" false)
     else "")
    (if formIsAzure r
     then fst (RetrieveMultiPartFormValue r "AzureAuthenticationKey" false)
     else "")
    (Some (formTags r)).

(** What a message of [Validate] says about the request: the field it names
    could not be read (or, for the type, is 0), and had to be read. *)
Definition blames (r : Request) (e : error) : bool :=
  if String.eqb e (portainer_Error "Invalid endpoint name") then
    negb (noError (snd (RetrieveMultiPartFormValue r "Name" false)))
  else if String.eqb e ErrInvalidEndpointType then
    negb (noError (snd (RetrieveNumericMultiPartFormValue r "EndpointType"
                          false)))
    || (formType r =? 0)
  else if String.eqb e (portainer_Error "Invalid Tags parameter") then
    negb (noError (snd (RetrieveMultiPartFormJSONValue r "Tags" true)))
  else if String.eqb e (portainer_Error "Invalid CA certificate file. Ensure that the file is uploaded correctly") then
    needsCA r && negb (fileUploaded r "TLSCACertFile")
  else if String.eqb e (portainer_Error "Invalid certificate file. Ensure that the file is uploaded correctly") then
    needsClientFiles r && negb (fileUploaded r "TLSCertFile")
  else if String.eqb e (portainer_Error "Invalid key file. Ensure that the file is uploaded correctly") then
    needsClientFiles r && negb (fileUploaded r "TLSKeyFile")
  else if String.eqb e (portainer_Error "Invalid Azure application ID") then
    formIsAzure r
    && negb (noError (snd (RetrieveMultiPartFormValue r "AzureApplicationID"
                             false)))
  else if String.eqb e (portainer_Error "Invalid Azure tenant ID") then
    formIsAzure r
    && negb (noError (snd (RetrieveMultiPartFormValue r "AzureTenantID"
                             false)))
  else if String.eqb e (portainer_Error "Invalid Azure authentication key") then
    formIsAzure r
    && negb (noError (snd (RetrieveMultiPartFormValue r
                             "AzureAuthenticationKey" false)))
  else if String.eqb e (portainer_Error "Invalid endpoint URL") then
    negb (formIsAzure r)
    && negb (noError (snd (RetrieveMultiPartFormValue r "URL" true)))
  else false.

(** A runtime whose random source always gives the same number. *)
Definition stuckRandom : Runtime :=
  mkRuntime "linux"
    (fun _ n => 4242 mod n)
    (json_Marshal reachable)
    (fun _ _ _ _ _ => (Some (mkTLSHandle 1), None))
    (fun _ => None)
    (fun _ _ => (false, None)).

(** The messages of the errors of the creation paths, and those of
    [storeTLSFiles]. *)
Definition creationMessages : list string :=
  [ "Unable to authenticate against Azure";
    "Unable to encode Edge key";
    "Unable to create TLS configuration";
    "Unable to ping Docker environment";
    "Unable to persist endpoint inside the database" ].
Definition fileStoreMessages : list string :=
  [ "Unable to persist TLS CA certificate file on disk";
    "Unable to persist TLS certificate file on disk";
    "Unable to persist TLS key file on disk" ].

(** * The endpoint edition controller

    The JavaScript controller [EndpointController]: what [initView] makes
    of the endpoint it loads and the payload [updateEndpoint] sends.  The
    services, the notifications and the navigation of the controller are
    left out. *)

Module EndpointController.

(** A JavaScript value, as the form and the endpoint hold one for a TLS
    file: [undefined], [null], a string, or an object (an uploaded file)
    known by its identity. *)
Inductive JSValue :=
| JSUndefined
| JSNull
| JSString (s : string)
| JSObject (ref : Z).

(** [a === b]. *)
Definition strictEquals (a b : JSValue) : bool :=
  match a, b with
  | JSUndefined, JSUndefined => true
  | JSNull, JSNull => true
  | JSString s, JSString t => String.eqb s t
  | JSObject r, JSObject r' => r =? r'
  | _, _ => false
  end.

(** [$scope.formValues.SecurityFormData]. *)
Record SecurityFormData := mkSecurityFormData {
  TLS : bool;
  TLSMode : string;
  TLSCACert : JSValue;
  TLSCert : JSValue;
  TLSKey : JSValue
}.

(** [endpoint.TLSConfig] and [endpoint.AzureCredentials]. *)
Record TLSConfig := mkTLSConfig {
  configTLSCACert : JSValue;
  configTLSCert : JSValue;
  configTLSKey : JSValue
}.
Record Credentials := mkCredentials {
  ApplicationID : string;
  TenantID : string;
  AuthenticationKey : string
}.

(** [$scope.endpoint]. *)
Record Endpoint := mkEndpoint {
  Name : string;
  URL : string;
  PublicURL : string;
  GroupId : Z;
  Tags : list string;
  Type_ : Z;
  endpointTLSConfig : TLSConfig;
  AzureCredentials : Credentials
}.

(** The payload of [updateEndpoint]; [payloadURL] is [None] when the
    property [URL] is not set. *)
Record Payload := mkPayload {
  payloadName : string;
  payloadPublicURL : string;
  payloadGroupID : Z;
  payloadTags : list string;
  payloadTLS : bool;
  payloadTLSSkipVerify : bool;
  payloadTLSSkipClientVerify : bool;
  payloadTLSCACert : JSValue;
  payloadTLSCert : JSValue;
  payloadTLSKey : JSValue;
  payloadAzureApplicationID : string;
  payloadAzureTenantID : string;
  payloadAzureAuthenticationKey : string;
  payloadURL : option string
}.

(** The payload [updateEndpoint] builds from [$scope.endpointType],
    [$scope.endpoint] and the security form. *)
Definition updateEndpoint (endpointType : string) (endpoint : Endpoint)
    (securityData : SecurityFormData) : Payload :=
  let TLS := TLS securityData in
  let TLSMode := TLSMode securityData in
  let TLSSkipVerify :=
    TLS && (String.eqb TLSMode "tls_client_noca"
            || String.eqb TLSMode "tls_only") in
  let TLSSkipClientVerify :=
    TLS && (String.eqb TLSMode "tls_ca" || String.eqb TLSMode "tls_only") in
  mkPayload (Name endpoint) (PublicURL endpoint) (GroupId endpoint)
    (Tags endpoint) TLS TLSSkipVerify TLSSkipClientVerify
    (if TLSSkipVerify
        || strictEquals (TLSCACert securityData)
             (configTLSCACert (endpointTLSConfig endpoint))
     then JSNull else TLSCACert securityData)
    (if TLSSkipClientVerify
        || strictEquals (TLSCert securityData)
             (configTLSCert (endpointTLSConfig endpoint))
     then JSNull else TLSCert securityData)
    (if TLSSkipClientVerify
        || strictEquals (TLSKey securityData)
             (configTLSKey (endpointTLSConfig endpoint))
     then JSNull else TLSKey securityData)
    (ApplicationID (AzureCredentials endpoint))
    (TenantID (AzureCredentials endpoint))
    (AuthenticationKey (AzureCredentials endpoint))
    (if negb (String.eqb endpointType "local") && negb (Type_ endpoint =? 3)
     then Some ("tcp://" ++ URL endpoint)
     else None).

(** [s.indexOf(search)]: the index of the first occurrence of [search] in
    [s], -1 when there is none. *)
Fixpoint indexOf (s search : string) : Z :=
  if HasPrefix s search then 0
  else match s with
       | EmptyString => -1
       | String _ s' =>
           let i := indexOf s' search in
           if i <? 0 then -1 else i + 1
       end.

(** What [initView] does with the endpoint it has loaded: the value of
    [$scope.endpointType], and the endpoint put in the scope, its URL
    through the filter [stripprotocol], which is not part of the sources and
    is a parameter here. *)
Definition initView (stripprotocol : string -> string) (endpoint : Endpoint)
    : string * Endpoint :=
  let endpointType :=
    if (indexOf (URL endpoint) "unix://" =? 0)
       || (indexOf (URL endpoint) "npipe://" =? 0)
    then "local" else "remote" in
  (endpointType,
   mkEndpoint (Name endpoint) (stripprotocol (URL endpoint))
     (PublicURL endpoint) (GroupId endpoint) (Tags endpoint) (Type_ endpoint)
     (endpointTLSConfig endpoint) (AzureCredentials endpoint)).

(** The payload sent when the endpoint is loaded and the form submitted
    without a change to the endpoint. *)
Definition loadThenUpdate (stripprotocol : string -> string)
    (endpoint : Endpoint) (securityData : SecurityFormData) : Payload :=
  let '(endpointType, inScope) := initView stripprotocol endpoint in
  updateEndpoint endpointType inScope securityData.

End EndpointController.

(** * The table of Edge devices

    The React component [EdgeDevicesDatatable]: the columns it offers to
    hide.  The table itself is the work of the hooks of [react-table],
    which are not part of the sources. *)

Module EdgeDevicesDatatable.

(** A column definition, with its optional [canHide], and a column
    instance of the table. *)
Record Column := mkColumn {
  id : string;
  canHide : option bool
}.
Record ColumnInstance := mkColumnInstance {
  instanceId : string
}.

(** [columns.find((c) => c.id === colInstance.id)]. *)
Definition columnDef (columns : list Column) (colInstance : ColumnInstance)
    : option Column :=
  find (fun c => String.eqb (id c) (instanceId colInstance)) columns.

(** [columnDef?.canHide], as the filter reads it: truthy or not. *)
Definition hideable (columns : list Column) (colInstance : ColumnInstance)
    : bool :=
  match columnDef columns colInstance with
  | Some def => match canHide def with Some b => b | None => false end
  | None => false
  end.

(** [columnsToHide]. *)
Definition columnsToHide (columns : list Column)
    (allColumns : list ColumnInstance) : list ColumnInstance :=
  filter (hideable columns) allColumns.

End EdgeDevicesDatatable.

(** * Properties *)

(** ** Unpadded base64 *)

Lemma encodeChar_encodeStd_inString (x : Z) :
  inString (encodeChar encodeStd (Z.land x 63)) encodeStd = true.
Proof.
  assert (Hr : 0 <= Z.land x 63 < 64).
  { change 63 with (Z.ones 6). rewrite Z.land_ones by lia.
    apply Z.mod_pos_bound. reflexivity. }
  assert (Hall : forallb (fun n => inString (encodeChar encodeStd (Z.of_nat n))
                                     encodeStd) (seq 0 64) = true)
    by (vm_compute; reflexivity).
  rewrite forallb_forall in Hall.
  specialize (Hall (Z.to_nat (Z.land x 63))).
  rewrite Z2Nat.id in Hall by lia.
  apply Hall. apply in_seq. lia.
Qed.

(** A list induction that goes three elements at a time, as the encoder
    does. *)
Lemma list_ind3 {A} (Q : list A -> Prop) :
  Q [] -> (forall a, Q [a]) -> (forall a b, Q [a; b]) ->
  (forall a b c l, Q l -> Q (a :: b :: c :: l)) ->
  forall l, Q l.
Proof.
  intros H0 H1 H2 H3.
  fix IH 1.
  intros [|a [|b [|c l]]].
  - exact H0.
  - apply H1.
  - apply H2.
  - apply H3, IH.
Qed.

Lemma encodeNoPadding_encodeStd_allIn (src : bytes) :
  allIn encodeStd (encodeNoPadding encodeStd src) = true.
Proof.
  induction src as [|a|a b|a b c l IH] using list_ind3;
    cbn [encodeNoPadding allIn];
    rewrite ?encodeChar_encodeStd_inString, ?IH; reflexivity.
Qed.

Lemma encodeNoPadding_length (alphabet : string) (src : bytes) :
  String.length (encodeNoPadding alphabet src)
  = ((4 * List.length src + 2) / 3)%nat.
Proof.
  induction src as [|a|a b|a b c l IH] using list_ind3;
    cbn [encodeNoPadding String.length List.length]; try reflexivity.
  rewrite IH.
  replace (4 * S (S (S (List.length l))) + 2)%nat
    with ((4 * List.length l + 2) + 4 * 3)%nat by lia.
  rewrite Nat.div_add by discriminate. lia.
Qed.

(** ** The digest *)

(** The digest is sixteen bytes long, whatever the bytes hashed. *)
Lemma HashFromBytes_length (data : bytes) :
  List.length (HashFromBytes data) = 16%nat.
Proof.
  unfold HashFromBytes, md5_Sum.
  destruct (fold_left _ _ _) as [[[a b] c] d]. reflexivity.
Qed.

(** Two digests of the test suite of RFC 1321: those of the empty message
    and of ["abc"]. *)
Lemma HashFromBytes_test_suite :
  HashFromBytes [] =
    [xd4; x1d; x8c; xd9; x8f; x00; xb2; x04; xe9; x80; x09; x98; xec; xf8;
     x42; x7e]
  /\ HashFromBytes (list_byte_of_string "abc") =
       [x90; x01; x50; x98; x3c; xd2; x4f; xb0; xd6; x96; x3f; x7d; x28; xe1;
        x7f; x72].
Proof.
  split; vm_compute; reflexivity.
Qed.

(** ** The parser *)

Ltac destruct_scrutinee :=
  match goal with
  | |- context [match ?x with _ => _ end] => destruct x eqn:?
  | H : context [match ?x with _ => _ end] |- _ => destruct x eqn:?
  end.

Ltac invert_pairs :=
  repeat match goal with
         | H : (_, _) = (_, _) |- _ => inversion H; subst; clear H
         | H : Some _ = Some _ |- _ => inversion H; subst; clear H
         | H : Some _ = None |- _ => discriminate H
         | H : None = Some _ |- _ => discriminate H
         end.

Lemma validateTLS_Tags (r : Request) (p : P.t) :
  P.Tags (fst (validateTLS r p)) = P.Tags p.
Proof.
  unfold validateTLS.
  repeat (destruct_scrutinee; cbn); invert_pairs; reflexivity.
Qed.

Lemma validateByType_Tags (r : Request) (p : P.t) :
  P.Tags (fst (validateByType r p)) = P.Tags p.
Proof.
  unfold validateByType.
  repeat (destruct_scrutinee; cbn); invert_pairs; reflexivity.
Qed.

(** ** The creation paths, one by one *)

(** Integer arithmetic and the string functions stay folded while a path is
    run symbolically. *)
Arguments Z.add : simpl never.
Arguments Z.sub : simpl never.
Arguments Itoa : simpl never.
Arguments TrimPrefix : simpl never.
Arguments RawStdEncoding_EncodeToString : simpl never.
Arguments HashFromBytes : simpl never.
Arguments String.append : simpl never.

Ltac unfold_ops :=
  unfold createAzureEndpoint, createEdgeAgentEndpoint,
    createUnsecuredEndpoint, persistUnsecuredEndpoint,
    createTLSSecuredEndpoint, snapshotAndPersistEndpoint, storeTLSFiles,
    storeClientFiles, randomInt, Intn, log_Printf, StoreTLSFileFromBytes,
    CreateSnapshot, CreateEndpoint, GetNextIdentifier, ExecutePingOperation,
    ExecuteAzureAuthenticationRequest, bind, ret, emit in *.

(** Splits the conjunctions of the goal, and nothing else. *)
Ltac split_all := repeat match goal with |- _ /\ _ => split end.

(** Evaluates a closed goal: its conjuncts one by one. *)
Ltac evaluate := cbv zeta; split_all; vm_compute; try reflexivity.

(** Case analysis on the innermost scrutinee of the goal. *)
Ltac goal_destruct :=
  match goal with
  | |- context [match ?x with _ => _ end] =>
      lazymatch x with
      | context [match _ with _ => _ end] => fail
      | _ => destruct x eqn:?
      end
  end.

Ltac exec := unfold_ops; cbn; repeat (goal_destruct; cbn).

(** Runs a computation that is the left-hand side of an equation in the
    goal, through every case of its collaborators' answers. *)
Ltac run := exec; intros; invert_pairs; cbn in *.

Lemma snapshotAndPersistEndpoint_spec handler (e : Endpoint.t) (st : State) :
  let '(e', err, st') := snapshotAndPersistEndpoint handler e st in
  let '(snapshot, snapErr) := Snapshotter_CreateSnapshot handler e in
  Endpoint.Status e'
    = match snapErr with Some _ => EndpointStatusDown | None => EndpointStatusUp end
  /\ Endpoint.Snapshots e'
    = match snapshot with Some s => [s] | None => Endpoint.Snapshots e end
  /\ Endpoint.Tags e' = Endpoint.Tags e
  /\ Endpoint.URL e' = Endpoint.URL e
  /\ Endpoint.Type_ e' = Endpoint.Type_ e
  /\ Endpoint.ID e' = Endpoint.ID e
  /\ nextIdentifier st' = nextIdentifier st
  /\ match err with
     | None => EndpointService_CreateEndpoint handler e' = None
               /\ endpoints st' = (endpoints st ++ [e'])%list
     | Some herr => EndpointService_CreateEndpoint handler e' <> None
                    /\ HandlerError.StatusCode herr = StatusInternalServerError
                    /\ endpoints st' = endpoints st
     end.
Proof.
  run; repeat split; try reflexivity; try congruence.
Qed.

Lemma createAzureEndpoint_persists rt handler payload st :
  persistsAtMostOne payload st (createAzureEndpoint rt handler payload st).
Proof.
  unfold persistsAtMostOne.
  destruct (createAzureEndpoint rt handler payload st) as [[res err] st'] eqn:E.
  revert E. run; auto.
Qed.
Lemma createEdgeAgentEndpoint_persists rt handler payload st :
  persistsAtMostOne payload st (createEdgeAgentEndpoint rt handler payload st).
Proof.
  unfold persistsAtMostOne.
  destruct (createEdgeAgentEndpoint rt handler payload st) as [[res err] st'] eqn:E.
  revert E. run; auto.
Qed.

Lemma createUnsecuredEndpoint_persists rt handler payload st :
  persistsAtMostOne payload st (createUnsecuredEndpoint rt handler payload st).
Proof.
  unfold persistsAtMostOne.
  destruct (createUnsecuredEndpoint rt handler payload st) as [[res err] st'] eqn:E.
  revert E. run; auto.
Qed.

Lemma createTLSSecuredEndpoint_persists rt handler payload st :
  persistsAtMostOne payload st (createTLSSecuredEndpoint rt handler payload st).
Proof.
  unfold persistsAtMostOne.
  destruct (createTLSSecuredEndpoint rt handler payload st) as [[res err] st'] eqn:E.
  revert E. run; auto.
Qed.

Lemma createEndpoint_persists rt handler payload st :
  persistsAtMostOne payload st (createEndpoint rt handler payload st).
Proof.
  unfold createEndpoint.
  destruct (_ =? AzureEnvironment); [apply createAzureEndpoint_persists|].
  destruct (_ =? EdgeAgentEnvironment); [apply createEdgeAgentEndpoint_persists|].
  destruct (P.TLS payload);
    [apply createTLSSecuredEndpoint_persists
    |apply createUnsecuredEndpoint_persists].
Qed.

(** ** The dispatch of [createEndpoint] *)

Lemma createEndpoint_Azure rt handler payload :
  isAzure payload = true ->
  createEndpoint rt handler payload = createAzureEndpoint rt handler payload.
Proof.
  unfold isAzure, createEndpoint. intros ->. reflexivity.
Qed.

Lemma createEndpoint_EdgeAgent rt handler payload :
  isEdgeAgent payload = true ->
  createEndpoint rt handler payload = createEdgeAgentEndpoint rt handler payload.
Proof.
  unfold isEdgeAgent, isAzure, createEndpoint.
  destruct (_ =? AzureEnvironment); [discriminate|].
  cbn. intros ->. reflexivity.
Qed.

Lemma createEndpoint_unsecured rt handler payload :
  isUnsecuredDocker payload = true ->
  createEndpoint rt handler payload = createUnsecuredEndpoint rt handler payload.
Proof.
  unfold isUnsecuredDocker, isDocker, createEndpoint.
  destruct (_ =? AzureEnvironment); [discriminate|].
  destruct (_ =? EdgeAgentEnvironment); [discriminate|].
  destruct (P.TLS payload); [discriminate|reflexivity].
Qed.

Lemma createEndpoint_TLSSecured rt handler payload :
  isTLSSecuredDocker payload = true ->
  createEndpoint rt handler payload = createTLSSecuredEndpoint rt handler payload.
Proof.
  unfold isTLSSecuredDocker, isDocker, createEndpoint.
  destruct (_ =? AzureEnvironment); [discriminate|].
  destruct (_ =? EdgeAgentEnvironment); [discriminate|].
  destruct (P.TLS payload); [reflexivity|discriminate].
Qed.

(** Every registration is of exactly one of the four kinds. *)
Lemma dispatch_total (payload : P.t) :
  isAzure payload = true \/ isEdgeAgent payload = true
  \/ isTLSSecuredDocker payload = true \/ isUnsecuredDocker payload = true.
Proof.
  unfold isAzure, isEdgeAgent, isTLSSecuredDocker, isUnsecuredDocker,
    isDocker, isAzure.
  destruct (_ =? AzureEnvironment), (_ =? EdgeAgentEnvironment),
    (P.TLS payload); cbn; auto.
Qed.

(** ** The parser on the type code *)

Lemma Validate_rejects_zero_type (r : Request) (p0 : P.t) (name : string)
    (groupErr : option error) :
  RetrieveMultiPartFormValue r "Name" false = (name, None) ->
  RetrieveNumericMultiPartFormValue r "EndpointType" false = (0, groupErr) ->
  snd (Validate p0 r) = Some ErrInvalidEndpointType.
Proof.
  unfold Validate. intros -> ->.
  destruct groupErr; reflexivity.
Qed.

Lemma Validate_rejects_unparsed_type (r : Request) (p0 : P.t) (name : string)
    (v : Z) (e : error) :
  RetrieveMultiPartFormValue r "Name" false = (name, None) ->
  RetrieveNumericMultiPartFormValue r "EndpointType" false = (v, Some e) ->
  snd (Validate p0 r) = Some ErrInvalidEndpointType.
Proof.
  unfold Validate. intros -> ->. reflexivity.
Qed.

(** ** Unsecured Docker registrations *)

(** The tail of the unsecured path when the snapshot attempt fails without
    a snapshot and the database write succeeds: the record is persisted,
    Down, with no snapshot. *)
Lemma persistUnsecuredEndpoint_soft_fail handler payload ty st :
  (forall e, exists err,
      Snapshotter_CreateSnapshot handler e = (None, Some err)) ->
  (forall e, EndpointService_CreateEndpoint handler e = None) ->
  exists ep st',
    persistUnsecuredEndpoint handler payload ty st = (Some ep, None, st')
    /\ endpoints st' = (endpoints st ++ [ep])%list
    /\ Endpoint.Status ep = EndpointStatusDown
    /\ Endpoint.Snapshots ep = []
    /\ Endpoint.URL ep = P.URL payload
    /\ Endpoint.Type_ ep = ty.
Proof.
  intros Hsnap Hdb.
  unfold persistUnsecuredEndpoint, snapshotAndPersistEndpoint, bind,
    GetNextIdentifier, CreateSnapshot, log_Printf, CreateEndpoint, ret.
  cbn.
  match goal with
  | |- context [Snapshotter_CreateSnapshot handler ?e] =>
      destruct (Hsnap e) as [err Herr]; rewrite Herr
  end.
  cbn. rewrite !Hdb. cbn.
  eexists _, _. repeat split.
Qed.

(** C1 (amended).  An unsecured Docker registration whose connectivity probe
    fails is refused with a server error: nothing is persisted and no
    identifier is taken.  The soft failure is the one of the snapshot: when
    the probe succeeds or is skipped (empty URL), the snapshot attempt fails
    without a snapshot and the database write succeeds, the record is
    persisted with status Down and an empty snapshot list. *)
Theorem unsecured_soft_fail_is_on_snapshot rt handler payload st :
  isUnsecuredDocker payload = true ->
  let out := createEndpoint rt handler payload st in
  (forall e,
      P.URL payload <> "" ->
      snd (client_ExecutePingOperation rt (P.URL payload) None) = Some e ->
      fst out = (None, Some (HandlerError.mk StatusInternalServerError
                               "Unable to ping Docker environment" e))
      /\ endpoints (snd out) = endpoints st
      /\ nextIdentifier (snd out) = nextIdentifier st)
  /\ ((P.URL payload = ""
       \/ snd (client_ExecutePingOperation rt (P.URL payload) None) = None) ->
      (forall e, exists err,
          Snapshotter_CreateSnapshot handler e = (None, Some err)) ->
      (forall e, EndpointService_CreateEndpoint handler e = None) ->
      exists ep,
        fst out = (Some ep, None)
        /\ endpoints (snd out) = (endpoints st ++ [ep])%list
        /\ Endpoint.Status ep = EndpointStatusDown
        /\ Endpoint.Snapshots ep = []).
Proof.
  intros Hkind out. subst out.
  rewrite (createEndpoint_unsecured _ _ _ Hkind).
  unfold createUnsecuredEndpoint. split.
  - intros e Hurl Hping.
    destruct (String.eqb (P.URL payload) "") eqn:Eurl;
      [apply String.eqb_eq in Eurl; contradiction|].
    unfold bind, ExecutePingOperation.
    destruct (client_ExecutePingOperation rt (P.URL payload) None)
      as [agent err].
    cbn in Hping. subst err. cbn. auto.
  - intros Hprobe Hsnap Hdb.
    assert (Hrun : exists ep st',
               createUnsecuredEndpoint rt handler payload st
               = (Some ep, None, st')
               /\ endpoints st' = (endpoints st ++ [ep])%list
               /\ Endpoint.Status ep = EndpointStatusDown
               /\ Endpoint.Snapshots ep = []).
    { unfold createUnsecuredEndpoint.
      destruct (String.eqb (P.URL payload) "") eqn:Eurl.
      - match goal with
        | |- context [persistUnsecuredEndpoint handler ?p ?ty st] =>
            destruct (persistUnsecuredEndpoint_soft_fail handler p ty st
                        Hsnap Hdb) as (ep & st' & E & ? & ? & ? & _)
        end.
        exists ep, st'. auto.
      - destruct Hprobe as [Hempty|Hok];
          [apply String.eqb_neq in Eurl; contradiction|].
        unfold bind, ExecutePingOperation.
        destruct (client_ExecutePingOperation rt (P.URL payload) None)
          as [agent err].
        cbn in Hok. subst err.
        match goal with
        | |- context [persistUnsecuredEndpoint handler ?p ?ty ?s] =>
            destruct (persistUnsecuredEndpoint_soft_fail handler p ty s
                        Hsnap Hdb) as (ep & st' & E & ? & ? & ? & _)
        end.
        exists ep, st'. auto. }
    destruct Hrun as (ep & st' & E & ? & ? & ?).
    fold (createUnsecuredEndpoint rt handler payload). rewrite E.
    exists ep. cbn. auto.
Qed.

Lemma unsecured_soft_fail_is_on_snapshot_witness :
  (fst (createEndpoint unreachable snapshotFails
          (dockerPayload 1 "tcp://10.0.0.5:2375" false) emptyState)
   = (None, Some (HandlerError.mk StatusInternalServerError
                    "Unable to ping Docker environment"
                    "dial tcp 10.0.0.5:2375: i/o timeout")))
  /\ exists ep,
       fst (createEndpoint reachable snapshotFails
              (dockerPayload 1 "tcp://10.0.0.5:2375" false) emptyState)
       = (Some ep, None)
       /\ Endpoint.Status ep = EndpointStatusDown.
Proof.
  split.
  - apply (unsecured_soft_fail_is_on_snapshot unreachable snapshotFails
             (dockerPayload 1 "tcp://10.0.0.5:2375" false) emptyState
             eq_refl).
    + vm_compute. discriminate.
    + reflexivity.
  - destruct (unsecured_soft_fail_is_on_snapshot reachable snapshotFails
                (dockerPayload 1 "tcp://10.0.0.5:2375" false) emptyState
                eq_refl) as [_ H].
    destruct H as (ep & H1 & _ & H3 & _).
    + right. reflexivity.
    + intros e. exists "snapshot: connection refused". reflexivity.
    + intros e. reflexivity.
    + exists ep. split; assumption.
Defined.

(** C1 as stated fails: a valid unsecured Docker request for an unreachable
    engine is answered with a server error and leaves no record behind. *)
Lemma unsecured_unreachable_leaves_no_record :
  let r := dockerRequest 1 "tcp://10.0.0.5:2375" false in
  let payload := fst (Validate P.zero r) in
  let out := endpointCreate unreachable healthy r emptyState in
  snd (Validate P.zero r) = None
  /\ isUnsecuredDocker payload = true
  /\ snd (client_ExecutePingOperation unreachable (P.URL payload) None)
     <> None
  /\ fst out = (None, Some (HandlerError.mk StatusInternalServerError
                              "Unable to ping Docker environment"
                              "dial tcp 10.0.0.5:2375: i/o timeout"))
  /\ endpoints (snd out) = []
  /\ ~ (exists ep, In ep (endpoints (snd out))
                   /\ Endpoint.Status ep = EndpointStatusDown
                   /\ Endpoint.Snapshots ep = []).
Proof.
  evaluate.
  - discriminate.
  - intros (ep & [] & _).
Qed.

(** ** TLS-secured Docker registrations *)

(** C2.  A TLS-secured registration whose certificate cannot be stored: the
    file service keeps the CA certificate and fails on the certificate, yet
    [createTLSSecuredEndpoint] tests the error of the ping instead of the
    one of [storeTLSFiles], so the request succeeds and the persisted record
    refers to the CA certificate alone. *)
Theorem createTLSSecuredEndpoint_ignores_filesystemError :
  let r := dockerRequest 1 "tcp://10.0.0.5:2376" true in
  let payload := fst (Validate P.zero r) in
  let out := endpointCreate reachable diskFull r emptyState in
  let ep :=
    Endpoint.mk 1 "prod1" "tcp://10.0.0.5:2376" DockerEnvironment 1 ""
      (TLSConfiguration.mk true false "/data/tls/1/ca.pem" "" "")
      AzureCredentials.zero (Some []) EndpointStatusUp
      [mkSnapshot 1700000000] "" in
  snd (Validate P.zero r) = None
  /\ isTLSSecuredDocker payload = true
  /\ snd (FileService_StoreTLSFileFromBytes diskFull "1" TLSFileCert
            (P.TLSCertFile payload))
     = Some "write /data/tls/1/cert.pem: no space left on device"
  /\ snd (fst (storeTLSFiles diskFull
                 (Endpoint.mk 1 "prod1" "tcp://10.0.0.5:2376"
                    DockerEnvironment 1 ""
                    (TLSConfiguration.mk true false "" "" "")
                    AzureCredentials.zero (Some []) EndpointStatusUp [] "")
                 payload emptyState))
     = Some (HandlerError.mk StatusInternalServerError
               "Unable to persist TLS certificate file on disk"
               "write /data/tls/1/cert.pem: no space left on device")
  /\ fst out = (Some ep, None)
  /\ endpoints (snd out) = [ep]
  /\ tlsFiles (snd out)
     = [("1", TLSFileCA, P.TLSCACertFile payload, "/data/tls/1/ca.pem")].
Proof.
  evaluate.
Qed.
(** ** EdgeAgent registrations *)

(** What [createEdgeAgentEndpoint] returns when it succeeds. *)
Lemma createEdgeAgentEndpoint_success rt handler payload st ep st' :
  createEdgeAgentEndpoint rt handler payload st = (Some ep, None, st') ->
  exists marshaledKey,
    json_Marshal rt (edgeKeyRecord handler payload (edgePort rt st))
    = (marshaledKey, None)
    /\ ep = Endpoint.mk (nextIdentifier st) (P.Name payload)
              ("tcp://localhost:" ++ Itoa (edgePort rt st))
              EdgeAgentEnvironment (P.GroupID payload) ""
              (TLSConfiguration.mk false false "" "" "")
              AzureCredentials.zero (P.Tags payload) EndpointStatusUp []
              (RawStdEncoding_EncodeToString (HashFromBytes marshaledKey))
    /\ endpoints st' = (endpoints st ++ [ep])%list.
Proof.
  unfold edgePort. run.
  eexists. repeat split.
Qed.

(** C3 (amended).  For every successful EdgeAgent registration the stored
    edge key is the digest of the serialised tunnel-key record in unpadded
    base64 over the standard alphabet (with [+] and [/], not the URL-safe
    one), and the digest has a fixed length: sixteen bytes whatever the
    record, which the unpadded encoding turns into twenty-two characters. *)
Theorem edgeKey_is_unpadded_standard_base64 rt handler payload st ep st' :
  isEdgeAgent payload = true ->
  createEndpoint rt handler payload st = (Some ep, None, st') ->
  exists marshaledKey,
    json_Marshal rt (edgeKeyRecord handler payload (edgePort rt st))
    = (marshaledKey, None)
    /\ Endpoint.EdgeKey ep
       = RawStdEncoding_EncodeToString (HashFromBytes marshaledKey)
    /\ List.length (HashFromBytes marshaledKey) = 16%nat
    /\ allIn encodeStd (Endpoint.EdgeKey ep) = true
    /\ String.length (Endpoint.EdgeKey ep) = 22%nat.
Proof.
  intros Hkind E.
  rewrite (createEndpoint_EdgeAgent _ _ _ Hkind) in E.
  apply createEdgeAgentEndpoint_success in E.
  destruct E as (marshaledKey & Hjson & -> & _).
  exists marshaledKey. cbn [Endpoint.EdgeKey].
  unfold RawStdEncoding_EncodeToString.
  repeat split.
  - exact Hjson.
  - apply HashFromBytes_length.
  - apply encodeNoPadding_encodeStd_allIn.
  - rewrite encodeNoPadding_length, HashFromBytes_length. reflexivity.
Qed.

Lemma edgeKey_is_unpadded_standard_base64_witness :
  exists ep,
    fst (createEndpoint reachable healthy
           (dockerPayload 4 "tcp://portainer.example.com" false) emptyState)
    = (Some ep, None)
    /\ allIn encodeStd (Endpoint.EdgeKey ep) = true
    /\ String.length (Endpoint.EdgeKey ep) = 22%nat.
Proof.
  destruct (createEndpoint reachable healthy
              (dockerPayload 4 "tcp://portainer.example.com" false)
              emptyState) as [[[ep|] [e|]] st'] eqn:E;
    try (vm_compute in E; discriminate E).
  destruct (edgeKey_is_unpadded_standard_base64 reachable healthy
              (dockerPayload 4 "tcp://portainer.example.com" false)
              emptyState ep st' eq_refl E)
    as (marshaledKey & _ & _ & _ & Hall & Hlen).
  exists ep. split; [reflexivity|]. split; [exact Hall|exact Hlen].
Defined.

(** C3 as stated fails: the edge key of this successful registration is not
    the URL-safe encoding of the digest of the serialised record, and is
    not made of URL-safe characters. *)
Lemma edgeKey_is_not_URL_safe :
  let payload := dockerPayload 4 "tcp://edge.example.com" false in
  let out := createEndpoint reachable healthy payload emptyState in
  let digest :=
    HashFromBytes
      (fst (json_Marshal reachable
              (edgeKeyRecord healthy payload (edgePort reachable emptyState))))
  in
  isEdgeAgent payload = true
  /\ snd (fst out) = None
  /\ option_map Endpoint.EdgeKey (fst (fst out))
     = Some "+jeySGVI5xtEgzbvbnHhgw"
  /\ RawURLEncoding_EncodeToString digest = "-jeySGVI5xtEgzbvbnHhgw"
  /\ option_map Endpoint.EdgeKey (fst (fst out))
     <> Some (RawURLEncoding_EncodeToString digest)
  /\ option_map (fun ep => allIn encodeURL (Endpoint.EdgeKey ep))
       (fst (fst out))
     = Some false.
Proof.
  evaluate. discriminate.
Qed.

(** ** The type code *)

(** C4.  [Validate] refuses the type code 0 and a type field that is not a
    number, and nothing else: the code 5, which is none of the four codes
    its error message lists, goes through, and the request is registered as
    a plain Docker environment. *)
Theorem Validate_accepts_unrecognized_type :
  let r := dockerRequest 5 "" false in
  let out := endpointCreate reachable healthy r emptyState in
  let ep :=
    Endpoint.mk 1 "prod1" "unix:///var/run/docker.sock" DockerEnvironment 1
      "" (TLSConfiguration.mk false false "" "" "") AzureCredentials.zero
      (Some []) EndpointStatusUp [mkSnapshot 1700000000] "" in
  recognizedType 5 = false
  /\ RetrieveNumericMultiPartFormValue r "EndpointType" false = (5, None)
  /\ snd (Validate P.zero r) = None
  /\ P.EndpointType (fst (Validate P.zero r)) = 5
  /\ fst out = (Some ep, None)
  /\ endpoints (snd out) = [ep].
Proof.
  evaluate.
Qed.

(** ** Hard failures *)

Lemma identifiersTaken_app (tr tr' : list Event) :
  identifiersTaken (tr ++ tr') = (identifiersTaken tr ++ identifiersTaken tr')%list.
Proof. apply filter_app. Qed.

Lemma pings_app (tr tr' : list Event) :
  pings (tr ++ tr') = (pings tr ++ pings tr')%list.
Proof. apply filter_app. Qed.

(** C5.  An Azure registration whose authentication fails, and a
    TLS-secured Docker registration whose probe fails, return a server
    error, create no record and take no identifier: the allocator and the
    persisted records are as before, and the only call made is the failed
    one. *)
Theorem hard_fail_takes_no_identifier rt handler payload st :
  (isAzure payload = true
   /\ client_ExecuteAzureAuthenticationRequest rt (azureCredentials payload)
      <> None)
  \/ (isTLSSecuredDocker payload = true
      /\ snd (tlsConfiguration rt payload) = None
      /\ snd (client_ExecutePingOperation rt (P.URL payload)
                (fst (tlsConfiguration rt payload))) <> None) ->
  let out := createEndpoint rt handler payload st in
  fst (fst out) = None
  /\ (exists herr,
        snd (fst out) = Some herr
        /\ HandlerError.StatusCode herr = StatusInternalServerError)
  /\ endpoints (snd out) = endpoints st
  /\ nextIdentifier (snd out) = nextIdentifier st
  /\ tlsFiles (snd out) = tlsFiles st
  /\ identifiersTaken (trace (snd out)) = identifiersTaken (trace st)
  /\ List.length (trace (snd out)) = S (List.length (trace st)).
Proof.
  intros [[Hkind Hauth]|(Hkind & Htls & Hping)] out; subst out.
  - rewrite (createEndpoint_Azure _ _ _ Hkind).
    unfold createAzureEndpoint, bind, ExecuteAzureAuthenticationRequest.
    fold (azureCredentials payload).
    destruct (client_ExecuteAzureAuthenticationRequest rt
                (azureCredentials payload)) as [e|]; [|contradiction].
    cbn. rewrite identifiersTaken_app, length_app. cbn.
    rewrite app_nil_r, Nat.add_1_r. repeat split. eexists. split; reflexivity.
  - rewrite (createEndpoint_TLSSecured _ _ _ Hkind).
    unfold createTLSSecuredEndpoint.
    fold (tlsConfiguration rt payload).
    destruct (tlsConfiguration rt payload) as [tlsConfig err].
    cbn in Htls, Hping. subst err.
    unfold bind, ExecutePingOperation.
    destruct (client_ExecutePingOperation rt (P.URL payload) tlsConfig)
      as [agent [e|]]; [|contradiction].
    cbn. rewrite identifiersTaken_app, length_app. cbn.
    rewrite app_nil_r, Nat.add_1_r. repeat split. eexists. split; reflexivity.
Qed.

Lemma hard_fail_takes_no_identifier_witness :
  (let out := createEndpoint unreachable healthy azurePayload emptyState in
   fst (fst out) = None /\ nextIdentifier (snd out) = 1 /\ endpoints (snd out) = [])
  /\ (let out := createEndpoint unreachable healthy
                   (dockerPayload 1 "tcp://10.0.0.5:2376" true) emptyState in
      fst (fst out) = None /\ nextIdentifier (snd out) = 1
      /\ endpoints (snd out) = []).
Proof.
  split.
  - destruct (hard_fail_takes_no_identifier unreachable healthy azurePayload
                emptyState) as (H1 & _ & H3 & H4 & _).
    + left. split; [reflexivity|]. vm_compute. discriminate.
    + cbv zeta. auto.
  - destruct (hard_fail_takes_no_identifier unreachable healthy
                (dockerPayload 1 "tcp://10.0.0.5:2376" true) emptyState)
      as (H1 & _ & H3 & H4 & _).
    + right. split; [reflexivity|]. split; [reflexivity|].
      vm_compute. discriminate.
    + cbv zeta. auto.
Defined.

(** C6 (amended).  A TLS-secured registration whose certificate and key
    bytes do not make a TLS configuration fails with the error of the
    configuration builder, reported as a server error (status 500, not a
    client error); it fails before any call is made: the state, its trace
    included, is the one the request started in. *)
Theorem tls_configuration_error_is_server_error rt handler payload st e :
  isTLSSecuredDocker payload = true ->
  snd (tlsConfiguration rt payload) = Some e ->
  createEndpoint rt handler payload st
  = (None,
     Some (HandlerError.mk StatusInternalServerError
             "Unable to create TLS configuration" e),
     st)
  /\ isServerError StatusInternalServerError = true
  /\ isClientError StatusInternalServerError = false.
Proof.
  intros Hkind Htls.
  rewrite (createEndpoint_TLSSecured _ _ _ Hkind).
  unfold createTLSSecuredEndpoint.
  fold (tlsConfiguration rt payload).
  destruct (tlsConfiguration rt payload) as [tlsConfig err].
  cbn in Htls. subst err. cbn. repeat split.
Qed.

Lemma tls_configuration_error_is_server_error_witness :
  createEndpoint badCertificate healthy
    (dockerPayload 1 "tcp://10.0.0.5:2376" true) emptyState
  = (None,
     Some (HandlerError.mk 500 "Unable to create TLS configuration"
             "tls: failed to find any PEM data in certificate input"),
     emptyState).
Proof.
  apply (tls_configuration_error_is_server_error badCertificate healthy
           (dockerPayload 1 "tcp://10.0.0.5:2376" true) emptyState
           "tls: failed to find any PEM data in certificate input").
  - reflexivity.
  - reflexivity.
Defined.

(** C6 as stated fails: the certificate of this TLS-secured request does not
    parse, and the error the handler answers with is not a client error. *)
Lemma tls_configuration_error_is_not_client_error :
  let r := dockerRequest 1 "tcp://10.0.0.5:2376" true in
  let payload := fst (Validate P.zero r) in
  let out := endpointCreate badCertificate healthy r emptyState in
  snd (Validate P.zero r) = None
  /\ isTLSSecuredDocker payload = true
  /\ snd (tlsConfiguration badCertificate payload) <> None
  /\ fst (fst out) = None
  /\ option_map HandlerError.StatusCode (snd (fst out)) = Some 500
  /\ option_map (fun herr => isClientError (HandlerError.StatusCode herr))
       (snd (fst out))
     = Some false
  /\ snd out = emptyState.
Proof.
  evaluate. discriminate.
Qed.

(** ** The tunnel port *)

Lemma randomInt_range rt (min max : Z) (st : State) :
  IntnContract rt -> min < max ->
  min <= fst (randomInt rt min max st) < max.
Proof.
  intros Hrand Hlt.
  unfold randomInt, bind, Intn, ret. cbn [fst].
  pose proof (Hrand (randDraws st) (max - min) ltac:(lia)). lia.
Qed.

Lemma randomInt_edgePort rt (st : State) :
  fst (randomInt rt 49152 65535 st) = edgePort rt st.
Proof. reflexivity. Qed.

(** C7.  With a random source that meets the contract of [rand.Intn], the
    port drawn for an EdgeAgent registration lies in [[49152, 65535)], and
    the environment that is returned and persisted has the URL
    ["tcp://localhost:<port>"] for that port. *)
Theorem edge_port_range_and_url rt handler payload st :
  IntnContract rt ->
  isEdgeAgent payload = true ->
  let out := createEndpoint rt handler payload st in
  let port := fst (randomInt rt 49152 65535 st) in
  49152 <= port < 65535
  /\ forall ep,
       fst (fst out) = Some ep ->
       Endpoint.URL ep = "tcp://localhost:" ++ Itoa port
       /\ endpoints (snd out) = (endpoints st ++ [ep])%list.
Proof.
  intros Hrand Hkind out port. split.
  - apply randomInt_range; [exact Hrand|lia].
  - intros ep Hep. subst out port.
    rewrite randomInt_edgePort.
    pose proof (createEndpoint_persists rt handler payload st) as Hp.
    unfold persistsAtMostOne in Hp. rewrite Hep in Hp.
    destruct Hp as (Herr & Hdb & _).
    split; [|exact Hdb].
    rewrite (createEndpoint_EdgeAgent _ _ _ Hkind) in Hep, Herr.
    destruct (createEdgeAgentEndpoint rt handler payload st)
      as [[res err] st'] eqn:E.
    cbn in Hep, Herr. subst res err.
    apply createEdgeAgentEndpoint_success in E.
    destruct E as (marshaledKey & _ & -> & _). reflexivity.
Qed.

Lemma sampleRuntime_IntnContract ping azure tls :
  IntnContract (sampleRuntime ping azure tls).
Proof.
  intros k n Hn. cbn. apply Z.mod_pos_bound. exact Hn.
Qed.

Lemma edge_port_range_and_url_witness :
  exists ep,
    fst (fst (createEndpoint reachable healthy
                (dockerPayload 4 "tcp://portainer.example.com" false)
                emptyState)) = Some ep
    /\ Endpoint.URL ep = "tcp://localhost:53394"
    /\ 49152 <= 53394 < 65535.
Proof.
  destruct (edge_port_range_and_url reachable healthy
              (dockerPayload 4 "tcp://portainer.example.com" false)
              emptyState (sampleRuntime_IntnContract _ _ _) eq_refl)
    as [Hrange Hurl].
  destruct (fst (fst (createEndpoint reachable healthy
                (dockerPayload 4 "tcp://portainer.example.com" false)
                emptyState))) as [ep|] eqn:E;
    [|vm_compute in E; discriminate E].
  exists ep. split; [reflexivity|].
  destruct (Hurl ep eq_refl) as [-> _].
  split; [reflexivity|exact Hrange].
Defined.

(** ** Tags *)

(** The tags of a validated payload: the decoded [Tags] field, the empty
    sequence when decoding left the target nil. *)
Lemma Validate_Tags (r : Request) (p0 payload : P.t) :
  Validate p0 r = (payload, None) ->
  P.Tags payload
  = Some match fst (RetrieveMultiPartFormJSONValue r "Tags" true) with
         | Some tags => tags
         | None => []
         end.
Proof.
  unfold Validate.
  destruct (RetrieveMultiPartFormValue r "Name" false) as [name [e|]];
    [discriminate|].
  destruct (RetrieveNumericMultiPartFormValue r "EndpointType" false)
    as [endpointType err].
  destruct (_ || _); [discriminate|].
  destruct (RetrieveNumericMultiPartFormValue r "GroupID" true) as [groupID ?].
  destruct (RetrieveMultiPartFormJSONValue r "Tags" true) as [tags [e|]];
    [discriminate|].
  destruct (RetrieveBooleanMultiPartFormValue r "TLS" true) as [useTLS ?].
  match goal with
  | |- context [P.with_TLS useTLS ?p] => set (q := P.with_TLS useTLS p)
  end.
  assert (Hq : P.Tags q = Some match tags with Some l => l | None => [] end)
    by (subst q; destruct tags; reflexivity).
  assert (Hstep : forall q' e', (if P.TLS q then validateTLS r q else (q, None))
                                = (q', e') -> P.Tags q' = P.Tags q).
  { intros q' e' H. destruct (P.TLS q).
    - rewrite <- (validateTLS_Tags r q), H. reflexivity.
    - inversion H. reflexivity. }
  destruct (if P.TLS q then validateTLS r q else (q, None)) as [q' [e'|]] eqn:E;
    [discriminate|].
  intros H.
  pose proof (validateByType_Tags r q') as Hty.
  rewrite H in Hty. cbn [fst] in Hty.
  rewrite Hty, (Hstep _ _ eq_refl). exact Hq.
Qed.

(** A [Tags] field that does not decode makes [Validate] fail, with the
    error of the tags when the name and the type code are accepted. *)
Lemma Validate_Tags_error (r : Request) (p0 : P.t) (e : error) :
  snd (RetrieveMultiPartFormJSONValue r "Tags" true) = Some e ->
  snd (Validate p0 r) <> None
  /\ (snd (RetrieveMultiPartFormValue r "Name" false) = None ->
      snd (RetrieveNumericMultiPartFormValue r "EndpointType" false) = None ->
      fst (RetrieveNumericMultiPartFormValue r "EndpointType" false) <> 0 ->
      snd (Validate p0 r) = Some (portainer_Error "Invalid Tags parameter")).
Proof.
  intros Htags. unfold Validate.
  destruct (RetrieveMultiPartFormValue r "Name" false) as [name [en|]];
    [cbn; split; [discriminate|discriminate]|].
  destruct (RetrieveNumericMultiPartFormValue r "EndpointType" false)
    as [endpointType [et|]];
    [cbn; split; [discriminate|discriminate]|].
  cbn [orb fst snd].
  destruct (endpointType =? 0) eqn:Ety.
  - cbn. split; [discriminate|]. intros _ _ Hne.
    apply Z.eqb_eq in Ety. contradiction.
  - destruct (RetrieveNumericMultiPartFormValue r "GroupID" true)
      as [groupID ?].
    destruct (RetrieveMultiPartFormJSONValue r "Tags" true) as [tags err].
    cbn in Htags. subst err. cbn. split; [discriminate|reflexivity].
Qed.

(** What [endpointCreate] returns is what it has persisted, and its tags
    are those of the validated payload. *)
Lemma endpointCreate_persists rt handler r st :
  let out := endpointCreate rt handler r st in
  match fst (fst out) with
  | None => endpoints (snd out) = endpoints st
  | Some ep =>
      snd (fst out) = None
      /\ endpoints (snd out) = (endpoints st ++ [ep])%list
      /\ snd (Validate P.zero r) = None
      /\ Endpoint.Tags ep = P.Tags (fst (Validate P.zero r))
  end.
Proof.
  unfold endpointCreate.
  destruct (authorizeEndpointManagement handler); cbn; [|reflexivity].
  destruct (Validate P.zero r) as [payload [e|]]; cbn; [reflexivity|].
  pose proof (createEndpoint_persists rt handler payload st) as Hp.
  unfold persistsAtMostOne in Hp.
  destruct (fst (fst (createEndpoint rt handler payload st))); [|exact Hp].
  destruct Hp as (? & ? & ?). auto.
Qed.

(** C8.  Whatever the request, the record [endpointCreate] returns and
    persists has a tags sequence, never nil: the empty sequence when the
    [Tags] field is absent (decoding leaves the target nil).  A [Tags] field
    that does not decode is a validation error: the request is refused as a
    bad request and nothing is persisted. *)
Theorem tags_never_nil rt handler r st :
  let out := endpointCreate rt handler r st in
  (forall ep, In ep (endpoints (snd out)) -> ~ In ep (endpoints st) ->
              fst (fst out) = Some ep)
  /\ (forall ep, fst (fst out) = Some ep ->
                 Endpoint.Tags ep <> None
                 /\ endpoints (snd out) = (endpoints st ++ [ep])%list)
  /\ (RetrieveMultiPartFormJSONValue r "Tags" true = (None, None) ->
      forall ep, fst (fst out) = Some ep -> Endpoint.Tags ep = Some [])
  /\ (forall e,
        snd (RetrieveMultiPartFormJSONValue r "Tags" true) = Some e ->
        snd (Validate P.zero r) <> None
        /\ (authorizeEndpointManagement handler = true ->
            exists verr,
              out = (None,
                     Some (HandlerError.mk StatusBadRequest
                             "Invalid request payload" verr),
                     st))).
Proof.
  intros out.
  pose proof (endpointCreate_persists rt handler r st) as Hp.
  cbv zeta in Hp. fold out in Hp.
  repeat split.
  - intros ep Hin Hnew.
    destruct (fst (fst out)) as [ep'|].
    + destruct Hp as (_ & Hdb & _). rewrite Hdb in Hin.
      apply in_app_or in Hin. destruct Hin as [Hin|[->|[]]];
        [contradiction|reflexivity].
    + rewrite Hp in Hin. contradiction.
  - rewrite H in Hp. destruct Hp as (_ & _ & Hv & Htags).
    destruct (Validate P.zero r) as [payload err] eqn:E.
    cbn in Hv, Htags. subst err.
    rewrite Htags, (Validate_Tags _ _ _ E). discriminate.
  - rewrite H in Hp. apply Hp.
  - intros Habsent ep Hep.
    rewrite Hep in Hp. destruct Hp as (_ & _ & Hv & Htags).
    destruct (Validate P.zero r) as [payload err] eqn:E.
    cbn in Hv, Htags. subst err.
    rewrite Htags, (Validate_Tags _ _ _ E), Habsent. reflexivity.
  - apply (Validate_Tags_error r P.zero e H).
  - intros Hauth. subst out. unfold endpointCreate. rewrite Hauth. cbn.
    pose proof (proj1 (Validate_Tags_error r P.zero e H)) as Hv.
    destruct (Validate P.zero r) as [payload [verr|]];
      [|cbn in Hv; contradiction].
    exists verr. reflexivity.
Qed.

Lemma tags_never_nil_witness :
  (exists ep,
     fst (fst (endpointCreate reachable healthy
                 (dockerRequest 1 "tcp://10.0.0.5:2375" false) emptyState))
     = Some ep
     /\ Endpoint.Tags ep = Some [])
  /\ exists verr,
       endpointCreate reachable healthy badTagsRequest emptyState
       = (None,
          Some (HandlerError.mk StatusBadRequest "Invalid request payload"
                  verr),
          emptyState).
Proof.
  split.
  - destruct (tags_never_nil reachable healthy
                (dockerRequest 1 "tcp://10.0.0.5:2375" false) emptyState)
      as (_ & _ & Habsent & _).
    destruct (fst (fst (endpointCreate reachable healthy
                (dockerRequest 1 "tcp://10.0.0.5:2375" false) emptyState)))
      as [ep|] eqn:E; [|vm_compute in E; discriminate E].
    exists ep. split; [reflexivity|].
    apply Habsent; reflexivity.
  - destruct (tags_never_nil reachable healthy badTagsRequest emptyState)
      as (_ & _ & _ & Hbad).
    destruct (Hbad "invalid character 'o' looking for beginning of value"
                eq_refl) as [_ Hrefused].
    exact (Hrefused eq_refl).
Defined.

(** ** Azure registrations *)

(** The Azure path does not read the URL of the payload. *)
Lemma createAzureEndpoint_ignores_URL rt handler payload url :
  createAzureEndpoint rt handler (P.with_URL url payload)
  = createAzureEndpoint rt handler payload.
Proof. reflexivity. Qed.

(** C9.  Every successful Azure registration persists an environment whose
    URL is ["https://management.azure.com"], whatever URL the request
    carries, with status Up and no snapshot; the registration succeeds
    whenever the authentication and the database write do. *)
Theorem azure_endpoint_has_fixed_url rt handler payload st :
  isAzure payload = true ->
  let out := createEndpoint rt handler payload st in
  (forall ep,
      fst (fst out) = Some ep ->
      Endpoint.URL ep = "https://management.azure.com"
      /\ Endpoint.Status ep = EndpointStatusUp
      /\ Endpoint.Snapshots ep = []
      /\ Endpoint.Type_ ep = AzureEnvironment
      /\ endpoints (snd out) = (endpoints st ++ [ep])%list)
  /\ (forall url,
        createEndpoint rt handler (P.with_URL url payload) st = out)
  /\ (client_ExecuteAzureAuthenticationRequest rt (azureCredentials payload)
      = None ->
      (forall e, EndpointService_CreateEndpoint handler e = None) ->
      exists ep, fst out = (Some ep, None)).
Proof.
  intros Hkind out. subst out.
  rewrite (createEndpoint_Azure _ _ _ Hkind).
  repeat split.
  1-5: destruct (createAzureEndpoint rt handler payload st)
         as [[res err] st'] eqn:E;
       cbn in H; subst res; revert E; run; reflexivity.
  - intros url.
    rewrite createEndpoint_Azure by exact Hkind.
    apply (f_equal (fun m => m st)), createAzureEndpoint_ignores_URL.
  - intros Hauth Hdb.
    unfold createAzureEndpoint, bind, ExecuteAzureAuthenticationRequest,
      GetNextIdentifier, CreateEndpoint, ret.
    fold (azureCredentials payload). rewrite Hauth. cbn.
    rewrite Hdb. eexists. reflexivity.
Qed.

Lemma azure_endpoint_has_fixed_url_witness :
  exists ep,
    fst (createEndpoint reachable healthy azurePayload emptyState)
    = (Some ep, None)
    /\ P.URL azurePayload = ""
    /\ Endpoint.URL ep = "https://management.azure.com"
    /\ Endpoint.Status ep = EndpointStatusUp
    /\ Endpoint.Snapshots ep = [].
Proof.
  destruct (azure_endpoint_has_fixed_url reachable healthy azurePayload
              emptyState eq_refl) as (Hep & _ & Hok).
  destruct (Hok eq_refl (fun _ => eq_refl)) as [ep E].
  exists ep. split; [exact E|]. split; [reflexivity|].
  destruct (Hep ep) as (H1 & H2 & H3 & _).
  - rewrite E. reflexivity.
  - auto.
Defined.

(** ** The local engine *)

(** The tail of the unsecured path makes no probe, builds the endpoint from
    the URL of the payload and the type it is given, and succeeds when the
    database write does. *)
Lemma persistUnsecuredEndpoint_spec handler payload ty st :
  let out := persistUnsecuredEndpoint handler payload ty st in
  pings (trace (snd out)) = pings (trace st)
  /\ (forall ep,
        fst (fst out) = Some ep ->
        Endpoint.URL ep = P.URL payload
        /\ Endpoint.Type_ ep = ty
        /\ endpoints (snd out) = (endpoints st ++ [ep])%list)
  /\ ((forall e, EndpointService_CreateEndpoint handler e = None) ->
      exists ep, fst out = (Some ep, None)).
Proof.
  cbv zeta.
  destruct (persistUnsecuredEndpoint handler payload ty st)
    as [[res err] st'] eqn:E.
  cbn [fst snd]. revert E. run.
  all: unfold pings; rewrite ?filter_app; cbn; rewrite ?app_nil_r.
  all: repeat split; intros; invert_pairs; try reflexivity.
  all: try (eexists; reflexivity).
  all: match goal with
       | Hdb : forall e, EndpointService_CreateEndpoint _ e = None,
         Hno : EndpointService_CreateEndpoint _ _ = Some _ |- _ =>
           rewrite Hdb in Hno; discriminate Hno
       end.
Qed.

(** C10.  An unsecured Docker registration with an empty URL makes no
    connectivity probe; the environment it returns and persists has the
    local engine socket of the platform as its URL
    (["npipe:////./pipe/docker_engine"] on Windows,
    ["unix:///var/run/docker.sock"] elsewhere) and the plain Docker type.
    It succeeds whenever the database write does. *)
Theorem unsecured_empty_url_is_local_engine rt handler payload st :
  isUnsecuredDocker payload = true ->
  P.URL payload = "" ->
  let out := createEndpoint rt handler payload st in
  pings (trace (snd out)) = pings (trace st)
  /\ (forall ep,
        fst (fst out) = Some ep ->
        Endpoint.URL ep = localEngineSocket rt
        /\ Endpoint.Type_ ep = DockerEnvironment
        /\ endpoints (snd out) = (endpoints st ++ [ep])%list)
  /\ ((forall e, EndpointService_CreateEndpoint handler e = None) ->
      exists ep, fst out = (Some ep, None)).
Proof.
  intros Hkind Hurl out. subst out.
  rewrite (createEndpoint_unsecured _ _ _ Hkind).
  unfold createUnsecuredEndpoint, localEngineSocket. rewrite Hurl.
  cbn [String.eqb].
  destruct (String.eqb (GOOS rt) "windows");
    apply persistUnsecuredEndpoint_spec.
Qed.

Lemma unsecured_empty_url_is_local_engine_witness :
  exists ep,
    fst (createEndpoint unreachable healthy (dockerPayload 1 "" false)
           emptyState) = (Some ep, None)
    /\ Endpoint.URL ep = "unix:///var/run/docker.sock"
    /\ Endpoint.Type_ ep = DockerEnvironment.
Proof.
  destruct (unsecured_empty_url_is_local_engine unreachable healthy
              (dockerPayload 1 "" false) emptyState eq_refl eq_refl)
    as (_ & Hep & Hok).
  destruct (Hok (fun _ => eq_refl)) as [ep E].
  exists ep. split; [exact E|].
  destruct (Hep ep) as (H1 & H2 & _).
  - rewrite E. reflexivity.
  - split; [exact H1|exact H2].
Defined.

(** * Further properties of the handler *)

Arguments newCalls : simpl never.

Lemma skipn_length_app {A} (l r : list A) :
  skipn (List.length l) (l ++ r) = r.
Proof. induction l as [|a l IH]; [reflexivity|exact IH]. Qed.

Lemma newCalls_refl (st : State) (tr : list Event) :
  tr = trace st -> skipn (List.length (trace st)) tr = [].
Proof. intros ->. apply skipn_all. Qed.

(** Brings the calls of a run into the form of a list of events. *)
Ltac calls :=
  unfold newCalls; cbn [trace];
  rewrite <- ?app_assoc; cbn [app];
  rewrite ?skipn_length_app, ?skipn_all.

(** The four cases of the dispatch of [createEndpoint]. *)
Ltac by_kind payload :=
  unfold createEndpoint;
  destruct (P.EndpointType payload =? AzureEnvironment) eqn:?;
  [|destruct (P.EndpointType payload =? EdgeAgentEnvironment) eqn:?;
    [|destruct (P.TLS payload) eqn:?]].

(** Names the result of the creation path in the goal and runs the path
    through every case of its collaborators' answers. *)
Ltac run_as res err st' :=
  match goal with
  | |- context [?f ?rt ?handler ?payload ?st] =>
      lazymatch f with
      | createAzureEndpoint => idtac
      | createEdgeAgentEndpoint => idtac
      | createTLSSecuredEndpoint => idtac
      | createUnsecuredEndpoint => idtac
      end;
      let E := fresh "E" in
      destruct (f rt handler payload st) as [[res err] st'] eqn:E;
      cbn [fst snd]; revert E; exec;
      intros E; injection E as <- <- <-
  end.

(** ** The answers of the handler *)

(** [createEndpoint] returns an endpoint without an error or an error
    without an endpoint; the error is a server error. *)
Lemma createEndpoint_outcome rt handler payload st :
  (exists ep, fst (createEndpoint rt handler payload st) = (Some ep, None))
  \/ (exists herr,
        fst (createEndpoint rt handler payload st) = (None, Some herr)
        /\ HandlerError.StatusCode herr = StatusInternalServerError).
Proof.
  by_kind payload; run_as res err st';
    solve [left; eexists; reflexivity
          |right; eexists; split; reflexivity].
Qed.

(** X1.  [endpointCreate] answers with an endpoint and no error, or with an
    error and no endpoint.  The error is 503 when endpoint management is
    disabled and 400, around the error of [Validate], when the request does
    not validate; in both cases the state is untouched: no call was made.
    Any other error is a 500. *)
Theorem endpointCreate_answers rt handler r st :
  let out := endpointCreate rt handler r st in
  (exists ep, fst out = (Some ep, None))
  \/ (exists herr,
        fst out = (None, Some herr)
        /\ ((authorizeEndpointManagement handler = false
             /\ HandlerError.StatusCode herr = StatusServiceUnavailable
             /\ snd out = st)
            \/ (authorizeEndpointManagement handler = true
                /\ snd (Validate P.zero r) = Some (HandlerError.Err herr)
                /\ HandlerError.StatusCode herr = StatusBadRequest
                /\ snd out = st)
            \/ (authorizeEndpointManagement handler = true
                /\ snd (Validate P.zero r) = None
                /\ HandlerError.StatusCode herr
                   = StatusInternalServerError))).
Proof.
  cbv zeta. unfold endpointCreate.
  destruct (authorizeEndpointManagement handler); cbn [negb].
  - destruct (Validate P.zero r) as [payload [verr|]]; cbn [snd].
    + right. eexists. split; [reflexivity|].
      right. left. repeat split.
    + destruct (createEndpoint_outcome rt handler payload st)
        as [[ep Hep]|[herr [Herr Hcode]]].
      * left. exists ep. exact Hep.
      * right. exists herr. split; [exact Herr|].
        right. right. repeat split. exact Hcode.
  - right. eexists. split; [reflexivity|].
    left. repeat split.
Qed.

(** ** Identifiers *)

(** X2.  A request takes at most one identifier.  When [createEndpoint]
    returns an endpoint, its identifier is the one the allocator held when
    the request started, and the allocator has moved on by one; so the
    endpoint of a second successful request that starts where the first one
    ended has another identifier. *)
Theorem createEndpoint_identifier rt handler payload st :
  let out := createEndpoint rt handler payload st in
  (nextIdentifier (snd out) = nextIdentifier st
   \/ nextIdentifier (snd out) = nextIdentifier st + 1)
  /\ (forall ep,
        fst (fst out) = Some ep ->
        Endpoint.ID ep = nextIdentifier st
        /\ nextIdentifier (snd out) = nextIdentifier st + 1)
  /\ (forall rt' handler' payload' ep ep',
        fst (fst out) = Some ep ->
        fst (fst (createEndpoint rt' handler' payload' (snd out))) = Some ep' ->
        Endpoint.ID ep' = Endpoint.ID ep + 1).
Proof.
  cbv zeta.
  assert (Hone : forall rt handler payload st,
             (nextIdentifier (snd (createEndpoint rt handler payload st))
              = nextIdentifier st
              \/ nextIdentifier (snd (createEndpoint rt handler payload st))
                 = nextIdentifier st + 1)
             /\ forall ep,
                 fst (fst (createEndpoint rt handler payload st)) = Some ep ->
                 Endpoint.ID ep = nextIdentifier st
                 /\ nextIdentifier (snd (createEndpoint rt handler payload st))
                    = nextIdentifier st + 1).
  { clear. intros rt handler payload st.
    by_kind payload; run_as res err st';
      (split; [auto|]); intros ep Hep; inversion Hep; subst; auto. }
  split; [apply Hone|]. split; [apply Hone|].
  intros rt' handler' payload' ep ep' Hep Hep'.
  destruct (proj2 (Hone rt handler payload st) ep Hep) as [Hid Hnext].
  destruct (proj2 (Hone rt' handler' payload'
                     (snd (createEndpoint rt handler payload st))) ep' Hep')
    as [Hid' _].
  rewrite Hid', Hnext, Hid. reflexivity.
Qed.

(** ** The order of the calls *)

(** X3.  The calls of a request extend the trace.  The database is written
    at most once, as the last call of the request; the endpoint returned is
    the one written, and nothing is persisted when none is returned. *)
Theorem createEndpoint_writes_last rt handler payload st :
  let out := createEndpoint rt handler payload st in
  let calls := newCalls st (snd out) in
  trace (snd out) = (trace st ++ calls)%list
  /\ forallb (fun ev => negb (is_EndpointWrite ev)) (removelast calls) = true
  /\ (forall ep,
        fst (fst out) = Some ep ->
        last calls (LogEntry "") = EndpointWrite ep)
  /\ (fst (fst out) = None -> endpoints (snd out) = endpoints st).
Proof.
  cbv zeta. by_kind payload; run_as res err st'; calls;
    rewrite ?app_nil_r;
    (split; [reflexivity|]); (split; [reflexivity|]);
    (split; [intros ep Hep; inversion Hep; reflexivity|]);
    intros Hnone; solve [reflexivity|discriminate Hnone].
Qed.

(** X4.  Before it takes an identifier a request only probes (a ping or an
    Azure authentication); once it has taken one it does not probe any more
    and takes no second one.  File writes, the snapshot and the database
    write all come after the identifier. *)
Theorem createEndpoint_probes_then_allocates rt handler payload st :
  let calls := newCalls st (snd (createEndpoint rt handler payload st)) in
  forallb is_probe (beforeIdentifier calls) = true
  /\ forallb (fun ev => negb (is_probe ev || is_NextIdentifier ev))
       (afterIdentifier calls) = true.
Proof.
  cbv zeta. by_kind payload; run_as res err st'; calls;
    split; reflexivity.
Qed.

(** ** Azure and EdgeAgent registrations *)

(** X5.  An Azure or EdgeAgent registration makes no ping, takes no
    snapshot, writes no TLS file and logs nothing.  The endpoint it returns
    is Up, without snapshot and without TLS configuration; that of an
    EdgeAgent registration has no public URL, whatever the request gave. *)
Theorem azure_and_edge_skip_probe_and_snapshot rt handler payload st :
  isDocker payload = false ->
  let out := createEndpoint rt handler payload st in
  forallb (fun ev => negb (is_PingOperation ev || is_SnapshotAttempt ev
                           || is_TLSFileWrite ev || is_LogEntry ev))
    (newCalls st (snd out)) = true
  /\ tlsFiles (snd out) = tlsFiles st
  /\ forall ep,
       fst (fst out) = Some ep ->
       Endpoint.Status ep = EndpointStatusUp
       /\ Endpoint.Snapshots ep = []
       /\ Endpoint.TLSConfig ep = TLSConfiguration.zero
       /\ Endpoint.Type_ ep = P.EndpointType payload
       /\ (isEdgeAgent payload = true -> Endpoint.PublicURL ep = "").
Proof.
  unfold isDocker, isEdgeAgent, isAzure. cbv zeta. by_kind payload;
    try discriminate; intros _.
  - apply Z.eqb_eq in Heqb.
    run_as res err st'; calls;
      (split; [reflexivity|]); (split; [reflexivity|]);
      intros ep Hep; inversion Hep; subst; repeat split; auto; discriminate.
  - apply Z.eqb_eq in Heqb0.
    run_as res err st'; calls;
      (split; [reflexivity|]); (split; [reflexivity|]);
      intros ep Hep; inversion Hep; subst; repeat split; auto.
Qed.

Lemma azure_and_edge_skip_probe_and_snapshot_witness :
  let out := createEndpoint reachable healthy edgePayload emptyState in
  P.PublicURL edgePayload = "edge.example.com"
  /\ newCalls emptyState (snd out)
     = match fst (fst out) with
       | Some ep => [NextIdentifier 1; EndpointWrite ep]
       | None => []
       end
  /\ option_map Endpoint.PublicURL (fst (fst out)) = Some "".
Proof.
  cbv zeta.
  destruct (azure_and_edge_skip_probe_and_snapshot reachable healthy
              edgePayload emptyState eq_refl) as (_ & _ & Hep).
  split; [reflexivity|]. split; [vm_compute; reflexivity|].
  destruct (fst (fst (createEndpoint reachable healthy edgePayload
                        emptyState))) as [ep|] eqn:E;
    [|vm_compute in E; discriminate E].
  destruct (Hep ep eq_refl) as (_ & _ & _ & _ & Hpub).
  cbn. rewrite (Hpub eq_refl). reflexivity.
Defined.

(** X6.  An EdgeAgent registration takes its identifier and draws its port
    before anything can fail: whatever its outcome, the allocator has moved
    on by one and one number has been drawn.  When the Edge key cannot be
    serialised the request fails with a 500 and persists nothing, and the
    identifier is spent. *)
Theorem edge_takes_identifier_first rt handler payload st :
  isEdgeAgent payload = true ->
  let out := createEndpoint rt handler payload st in
  nextIdentifier (snd out) = nextIdentifier st + 1
  /\ randDraws (snd out) = S (randDraws st)
  /\ beforeIdentifier (newCalls st (snd out)) = []
  /\ forall e,
       snd (json_Marshal rt (edgeKeyRecord handler payload (edgePort rt st)))
       = Some e ->
       fst out = (None, Some (HandlerError.mk StatusInternalServerError
                                "Unable to encode Edge key" e))
       /\ endpoints (snd out) = endpoints st
       /\ newCalls st (snd out) = [NextIdentifier (nextIdentifier st)].
Proof.
  intros Hkind. cbv zeta.
  rewrite (createEndpoint_EdgeAgent _ _ _ Hkind).
  unfold edgePort.
  run_as res err st'; calls; repeat split; try reflexivity;
    intros; cbn in *; congruence.
Qed.

Lemma edge_takes_identifier_first_witness :
  let out := createEndpoint cannotMarshal healthy edgePayload emptyState in
  fst (fst out) = None
  /\ nextIdentifier (snd out) = 2
  /\ endpoints (snd out) = [].
Proof.
  cbv zeta.
  destruct (edge_takes_identifier_first cannotMarshal healthy edgePayload
              emptyState eq_refl) as (Hnext & _ & _ & Hfail).
  destruct (Hfail "json: unsupported value" eq_refl) as (Hres & Hdb & _).
  rewrite Hres, Hnext, Hdb. repeat split.
Defined.

(** ** Failures of the database *)

Ltac contradict_database :=
  match goal with
  | Hdb : forall e, EndpointService_CreateEndpoint _ e = Some _,
    Hok : EndpointService_CreateEndpoint _ _ = None |- _ =>
      rewrite Hdb in Hok; discriminate Hok
  | Hdb : forall e, EndpointService_CreateEndpoint _ e = Some _,
    Hko : EndpointService_CreateEndpoint _ _ = Some _ |- _ =>
      rewrite Hdb in Hko; injection Hko as <-
  end.

(** X7.  When the database refuses the write, no endpoint is returned and
    nothing is persisted; a request that got as far as the write fails with
    a 500 around the error of the database.  The identifier it took is not
    given back, and the TLS files it stored stay on disk: the files on disk
    afterwards are those that were there before, followed by every file the
    request had the file service store. *)
Theorem database_failure_is_fatal rt handler payload st derr :
  (forall e, EndpointService_CreateEndpoint handler e = Some derr) ->
  let out := createEndpoint rt handler payload st in
  let calls := newCalls st (snd out) in
  fst (fst out) = None
  /\ endpoints (snd out) = endpoints st
  /\ tlsFiles (snd out) = (tlsFiles st ++ filesStored handler calls)%list
  /\ (existsb is_EndpointWrite calls = true ->
      snd (fst out)
      = Some (HandlerError.mk StatusInternalServerError
                "Unable to persist endpoint inside the database" derr)
      /\ nextIdentifier (snd out) = nextIdentifier st + 1).
Proof.
  intros Hdb. cbv zeta. by_kind payload; run_as res err st'; calls;
    try contradict_database; cbn [tlsFiles];
    unfold filesStored, storeError, storedFile, storedPath;
    cbn [flat_map fst snd app];
    repeat match goal with
           | H : FileService_StoreTLSFileFromBytes _ _ _ _ = _ |- _ =>
               rewrite H; clear H
           end;
    cbn [flat_map fst snd app];
    rewrite <- ?app_assoc, ?app_nil_r;
    repeat split; try reflexivity;
    match goal with
    | Hw : existsb _ _ = true |- _ => cbn in Hw; discriminate Hw
    end.
Qed.

Lemma database_failure_is_fatal_witness :
  let out := createEndpoint reachable databaseDown (tlsPayload false false)
               emptyState in
  fst out = (None,
             Some (HandlerError.mk StatusInternalServerError
                     "Unable to persist endpoint inside the database"
                     "bolt: database not open"))
  /\ endpoints (snd out) = []
  /\ nextIdentifier (snd out) = 2
  /\ tlsFiles (snd out)
     = map (storedFile databaseDown "1")
         (tlsFilesToStore (tlsPayload false false)).
Proof.
  cbv zeta.
  pose proof (database_failure_is_fatal reachable databaseDown
                (tlsPayload false false) emptyState "bolt: database not open"
                (fun _ => eq_refl)) as H.
  cbv zeta in H. destruct H as (Hnone & Hdb & Hfiles & Hwrite).
  destruct (Hwrite eq_refl) as [Herr Hnext].
  split.
  - destruct (createEndpoint reachable databaseDown (tlsPayload false false)
                emptyState) as [[res err] st'].
    cbn in *. subst. reflexivity.
  - split; [exact Hdb|]. split; [exact Hnext|].
    rewrite Hfiles. vm_compute. reflexivity.
Defined.

(** ** Docker registrations *)

(** X8.  The endpoint a Docker registration returns went through one
    snapshot attempt, made on the endpoint as built (Up, no snapshot, with
    its identifier and its TLS paths).  An error of the snapshotter is not
    fatal: it is logged and makes the status Down, and no error makes it Up;
    the snapshot list holds the snapshot when the snapshotter gave one. *)
Theorem docker_status_reflects_snapshot rt handler payload st ep :
  isDocker payload = true ->
  let out := createEndpoint rt handler payload st in
  let calls := newCalls st (snd out) in
  fst (fst out) = Some ep ->
  exists e0,
    In (SnapshotAttempt e0) calls
    /\ List.length (filter is_SnapshotAttempt calls) = 1%nat
    /\ Endpoint.ID e0 = Endpoint.ID ep
    /\ Endpoint.TLSConfig e0 = Endpoint.TLSConfig ep
    /\ Endpoint.Status e0 = EndpointStatusUp
    /\ Endpoint.Snapshots e0 = []
    /\ Endpoint.Status ep
       = match snd (Snapshotter_CreateSnapshot handler e0) with
         | Some _ => EndpointStatusDown
         | None => EndpointStatusUp
         end
    /\ Endpoint.Snapshots ep
       = match fst (Snapshotter_CreateSnapshot handler e0) with
         | Some snapshot => [snapshot]
         | None => []
         end
    /\ existsb is_LogEntry calls
       = match snd (Snapshotter_CreateSnapshot handler e0) with
         | Some _ => true
         | None => false
         end.
Proof.
  unfold isDocker. cbv zeta. by_kind payload; try discriminate; intros _.
  all: run_as res err st'; calls; intros Hep; try discriminate Hep.
  all: injection Hep as <-.
  all: eexists; split;
    [cbn; repeat (first [left; reflexivity | right])|].
  all: match goal with
       | Hs : Snapshotter_CreateSnapshot _ _ = _ |- _ => rewrite Hs
       end.
  all: repeat split.
Qed.

Lemma docker_status_reflects_snapshot_witness :
  option_map Endpoint.Status
    (fst (fst (createEndpoint reachable snapshotFails
                 (dockerPayload 1 "tcp://10.0.0.5:2375" false) emptyState)))
  = Some EndpointStatusDown
  /\ option_map Endpoint.Status
       (fst (fst (createEndpoint reachable healthy
                    (tlsPayload false false) emptyState)))
     = Some EndpointStatusUp.
Proof.
  split.
  - destruct (fst (fst (createEndpoint reachable snapshotFails
                 (dockerPayload 1 "tcp://10.0.0.5:2375" false) emptyState)))
      as [ep|] eqn:E; [|vm_compute in E; discriminate E].
    destruct (docker_status_reflects_snapshot reachable snapshotFails
                (dockerPayload 1 "tcp://10.0.0.5:2375" false) emptyState ep
                eq_refl E) as (e0 & _ & _ & _ & _ & _ & _ & Hstatus & _).
    cbn. rewrite Hstatus. reflexivity.
  - destruct (fst (fst (createEndpoint reachable healthy
                    (tlsPayload false false) emptyState)))
      as [ep|] eqn:E; [|vm_compute in E; discriminate E].
    destruct (docker_status_reflects_snapshot reachable healthy
                (tlsPayload false false) emptyState ep
                eq_refl E) as (e0 & _ & _ & _ & _ & _ & _ & Hstatus & _).
    cbn. rewrite Hstatus. reflexivity.
Defined.

(** ** TLS files *)

(** X9.  [storeTLSFiles] stores the files of the payload in the folder named
    after the identifier of the endpoint: the CA certificate unless server
    verification is skipped, then the certificate and the key unless client
    verification is skipped.  It stops at the first file the file service
    refuses, with a 500 around that error; the files stored before stay on
    disk.  When none is refused the endpoint refers to the paths of all the
    files.  Nothing else of the endpoint or of the state changes. *)
Theorem storeTLSFiles_stops_at_first_failure handler e payload st :
  let out := storeTLSFiles handler e payload st in
  let e' := fst (fst out) in
  let folder := Itoa (Endpoint.ID e) in
  let expected := tlsFilesToStore payload in
  exists k,
    (k <= List.length expected)%nat
    /\ newCalls st (snd out) = map (storeCall folder) (firstn k expected)
    /\ match snd (fst out) with
       | None =>
           k = List.length expected
           /\ tlsFiles (snd out)
              = (tlsFiles st ++ map (storedFile handler folder) expected)%list
           /\ Endpoint.TLSConfig e'
              = withStoredPaths handler folder payload (Endpoint.TLSConfig e)
       | Some herr =>
           HandlerError.StatusCode herr = StatusInternalServerError
           /\ option_map (storeError handler folder)
                (nth_error expected (Nat.pred k))
              = Some (Some (HandlerError.Err herr))
           /\ tlsFiles (snd out)
              = (tlsFiles st
                 ++ map (storedFile handler folder)
                      (firstn (Nat.pred k) expected))%list
       end
    /\ Endpoint.with_TLSConfig (Endpoint.TLSConfig e) e' = e
    /\ TLSConfiguration.TLS (Endpoint.TLSConfig e')
       = TLSConfiguration.TLS (Endpoint.TLSConfig e)
    /\ TLSConfiguration.TLSSkipVerify (Endpoint.TLSConfig e')
       = TLSConfiguration.TLSSkipVerify (Endpoint.TLSConfig e)
    /\ endpoints (snd out) = endpoints st
    /\ nextIdentifier (snd out) = nextIdentifier st.
Proof.
  cbv zeta. unfold tlsFilesToStore, withStoredPaths, storedFile, storedPath,
    storeError, storeCall.
  destruct e as [id name url ty group public [tls skip ca cert key] az tags
                   status snaps ekey].
  destruct (P.TLSSkipVerify payload) eqn:Hsv,
    (P.TLSSkipClientVerify payload) eqn:Hscv.
  all: destruct (storeTLSFiles handler _ payload st) as [[e' err] st'] eqn:E.
  all: cbn [fst snd]; revert E; unfold storeTLSFiles, storeClientFiles.
  all: rewrite Hsv, Hscv; exec; intros E; inversion E; subst; clear E.
  all: calls; cbn [tlsFiles endpoints nextIdentifier].
  all: first
         [ exists 0%nat; cbn; rewrite ?app_nil_r; repeat split;
           solve [auto | lia]
         | exists 1%nat; cbn;
           repeat match goal with
                  | Hs : FileService_StoreTLSFileFromBytes _ _ _ _ = _ |- _ =>
                      rewrite Hs; clear Hs
                  end;
           cbn; rewrite <- ?app_assoc, ?app_nil_r; repeat split;
           solve [auto | lia]
         | exists 2%nat; cbn;
           repeat match goal with
                  | Hs : FileService_StoreTLSFileFromBytes _ _ _ _ = _ |- _ =>
                      rewrite Hs; clear Hs
                  end;
           cbn; rewrite <- ?app_assoc, ?app_nil_r; repeat split;
           solve [auto | lia]
         | exists 3%nat; cbn;
           repeat match goal with
                  | Hs : FileService_StoreTLSFileFromBytes _ _ _ _ = _ |- _ =>
                      rewrite Hs; clear Hs
                  end;
           cbn; rewrite <- ?app_assoc, ?app_nil_r; repeat split;
           solve [auto | lia] ].
Qed.

(** X10.  A TLS-secured Docker registration for which every collaborator
    answers without error returns and persists one endpoint: it has the
    identifier the allocator held, the type the ping gave (agent-fronted or
    plain), the TLS and skip-server-verification flags of the payload and
    the paths of the files stored in the folder of its identifier; these
    files, and no other, are added to the disk. *)
Theorem tls_registration_succeeds rt handler payload st cfg agent :
  isTLSSecuredDocker payload = true ->
  tlsConfiguration rt payload = (cfg, None) ->
  client_ExecutePingOperation rt (P.URL payload) cfg = (agent, None) ->
  (forall folder kind data,
      snd (FileService_StoreTLSFileFromBytes handler folder kind data)
      = None) ->
  (forall e, EndpointService_CreateEndpoint handler e = None) ->
  let out := createEndpoint rt handler payload st in
  let folder := Itoa (nextIdentifier st) in
  exists ep,
    fst out = (Some ep, None)
    /\ endpoints (snd out) = (endpoints st ++ [ep])%list
    /\ Endpoint.ID ep = nextIdentifier st
    /\ Endpoint.Type_ ep = dockerType agent
    /\ Endpoint.URL ep = P.URL payload
    /\ Endpoint.TLSConfig ep
       = withStoredPaths handler folder payload
           (TLSConfiguration.mk (P.TLS payload) (P.TLSSkipVerify payload)
              "" "" "")
    /\ tlsFiles (snd out)
       = (tlsFiles st
          ++ map (storedFile handler folder) (tlsFilesToStore payload))%list
    /\ filter is_TLSFileWrite (newCalls st (snd out))
       = map (storeCall folder) (tlsFilesToStore payload).
Proof.
  intros Hkind Htls Hping Hstore Hdb. cbv zeta.
  rewrite (createEndpoint_TLSSecured _ _ _ Hkind).
  unfold tlsConfiguration in Htls.
  unfold tlsFilesToStore, withStoredPaths, storedFile, storedPath, storeCall,
    dockerType.
  destruct (P.TLSSkipVerify payload) eqn:Hsv,
    (P.TLSSkipClientVerify payload) eqn:Hscv.
  all: destruct (createTLSSecuredEndpoint rt handler payload st)
         as [[res err] st'] eqn:E.
  all: cbn [fst snd]; revert E; unfold createTLSSecuredEndpoint.
  all: rewrite ?Hsv, ?Hscv, Htls; unfold bind at 1, ExecutePingOperation.
  all: rewrite Hping; cbn [fst snd].
  all: unfold_ops; rewrite ?Hsv, ?Hscv; cbn.
  all: repeat match goal with
         | |- context [FileService_StoreTLSFileFromBytes ?h ?f ?k ?d] =>
             let Hs := fresh "Hs" in
             pose proof (Hstore f k d) as Hs;
             destruct (FileService_StoreTLSFileFromBytes h f k d)
               as [? ?] eqn:?;
             cbn in Hs; subst; cbn
         end.
  all: repeat (goal_destruct; cbn); rewrite ?Hdb; cbn.
  all: intros E; inversion E; subst; clear E.
  all: calls; cbn [tlsFiles endpoints]; rewrite <- ?app_assoc, ?app_nil_r.
  all: try match goal with
           | Hx : EndpointService_CreateEndpoint _ _ = Some _ |- _ =>
               rewrite Hdb in Hx; discriminate Hx
           end.
  all: eexists; repeat split.
Qed.

Lemma tls_registration_succeeds_witness :
  let out := createEndpoint agentFronted healthy (tlsPayload false true)
               emptyState in
  option_map Endpoint.Type_ (fst (fst out)) = Some AgentOnDockerEnvironment
  /\ option_map Endpoint.TLSConfig (fst (fst out))
     = Some (TLSConfiguration.mk true false "/data/tls/1/ca.pem" "" "")
  /\ tlsFiles (snd out)
     = [("1", TLSFileCA, ["c"%byte; "a"%byte], "/data/tls/1/ca.pem")].
Proof.
  cbv zeta.
  pose proof (tls_registration_succeeds agentFronted healthy
                (tlsPayload false true) emptyState (Some (mkTLSHandle 1)) true
                eq_refl eq_refl eq_refl (fun _ _ _ => eq_refl)
                (fun _ => eq_refl)) as H.
  cbv zeta in H.
  destruct H as (ep & Hres & _ & _ & Hty & _ & Htls & Hfiles & _).
  rewrite Hres, Hfiles. cbn [fst option_map].
  rewrite Hty, Htls. repeat split.
Defined.

(** X11.  The type of the endpoint a Docker registration returns is the one
    its single ping gave, agent-fronted or plain, whatever type code the
    request carried; the ping goes to the URL of the payload, with the TLS
    configuration when TLS is requested and without one otherwise.  Without
    a ping (unsecured, empty URL) the type is the plain one. *)
Theorem docker_type_comes_from_the_ping rt handler payload st ep :
  isDocker payload = true ->
  let out := createEndpoint rt handler payload st in
  let cfg := if P.TLS payload then fst (tlsConfiguration rt payload)
             else None in
  fst (fst out) = Some ep ->
  (pings (newCalls st (snd out)) = []
   /\ P.TLS payload = false /\ P.URL payload = ""
   /\ Endpoint.Type_ ep = DockerEnvironment)
  \/ (pings (newCalls st (snd out)) = [PingOperation (P.URL payload) cfg]
      /\ Endpoint.Type_ ep
         = dockerType
             (fst (client_ExecutePingOperation rt (P.URL payload) cfg))).
Proof.
  unfold isDocker, tlsConfiguration, dockerType. cbv zeta.
  by_kind payload; try discriminate; intros _.
  all: run_as res err st'; calls; intros Hep; try discriminate Hep.
  all: injection Hep as <-; unfold pings; cbn [filter is_PingOperation].
  all: repeat match goal with
         | Hs : crypto_CreateTLSConfigurationFromBytes _ _ _ _ _ _ = _ |- _ =>
             rewrite Hs; clear Hs
         | Hs : client_ExecutePingOperation _ _ _ = _ |- _ =>
             rewrite Hs; clear Hs
         | Hs : String.eqb _ _ = true |- _ => apply String.eqb_eq in Hs
         end.
  all: cbn; solve [left; repeat split; auto | right; repeat split; auto].
Qed.

Lemma docker_type_comes_from_the_ping_witness :
  P.EndpointType (dockerPayload 1 "tcp://10.0.0.5:2375" false) = 1
  /\ option_map Endpoint.Type_
       (fst (fst (createEndpoint agentFronted healthy
                    (dockerPayload 1 "tcp://10.0.0.5:2375" false)
                    emptyState)))
     = Some AgentOnDockerEnvironment.
Proof.
  split; [reflexivity|].
  destruct (fst (fst (createEndpoint agentFronted healthy
                    (dockerPayload 1 "tcp://10.0.0.5:2375" false)
                    emptyState))) as [ep|] eqn:E;
    [|vm_compute in E; discriminate E].
  pose proof (docker_type_comes_from_the_ping agentFronted healthy
                (dockerPayload 1 "tcp://10.0.0.5:2375" false) emptyState ep
                eq_refl) as H.
  cbv zeta in H. specialize (H E).
  destruct H as [(_ & _ & Hurl & _)|(_ & Hty)].
  - vm_compute in Hurl. discriminate Hurl.
  - cbn. rewrite Hty. reflexivity.
Defined.

(** ** The parser, field by field *)

Ltac rewrite_accessors :=
  repeat match goal with
         | Hs : RetrieveMultiPartFormValue _ _ _ = _ |- _ =>
             rewrite ?Hs in *; clear Hs
         | Hs : RetrieveNumericMultiPartFormValue _ _ _ = _ |- _ =>
             rewrite ?Hs in *; clear Hs
         | Hs : RetrieveBooleanMultiPartFormValue _ _ _ = _ |- _ =>
             rewrite ?Hs in *; clear Hs
         | Hs : RetrieveMultiPartFormJSONValue _ _ _ = _ |- _ =>
             rewrite ?Hs in *; clear Hs
         | Hs : RetrieveMultiPartFormFile _ _ = _ |- _ =>
             rewrite ?Hs in *; clear Hs
         end.

Ltac unfold_form :=
  unfold validRequest, validatedPayload, needsCA, needsClientFiles,
    formIsAzure, fileUploaded, formFile, formSkipClientVerify,
    formSkipVerify, formTLS, formTags, formGroupID, formType, formName in *.

(** An accepted request is a valid one, and its payload is the validated
    payload. *)
Lemma Validate_accepts (r : Request) (payload : P.t) :
  Validate P.zero r = (payload, None) ->
  validRequest r = true /\ payload = validatedPayload r.
Proof.
  unfold Validate, validateTLS, validateByType.
  repeat (goal_destruct; cbn -[Z.eqb]); intros E; inversion E; subst; clear E.
  all: unfold_form; rewrite_accessors; cbn -[Z.eqb] in *.
  all: repeat match goal with
         | Hb : _ = true |- _ => rewrite Hb in *; cbn -[Z.eqb] in *
         | Hb : _ = false |- _ => rewrite Hb in *; cbn -[Z.eqb] in *
         end.
  all: split; reflexivity.
Qed.

(** A valid request is accepted. *)
Lemma Validate_complete (r : Request) :
  validRequest r = true -> snd (Validate P.zero r) = None.
Proof.
  intros Hvalid. revert Hvalid.
  unfold Validate, validateTLS, validateByType.
  repeat (goal_destruct; cbn -[Z.eqb]); try reflexivity.
  all: unfold_form; rewrite_accessors; cbn -[Z.eqb] in *.
  all: repeat match goal with
         | Hb : _ = true |- _ => rewrite Hb in *; cbn -[Z.eqb] in *
         | Hb : _ = false |- _ => rewrite Hb in *; cbn -[Z.eqb] in *
         end.
  all: rewrite ?andb_false_r; cbn; try discriminate.
  all: repeat match goal with
         | |- context [if ?b then _ else _] => destruct b; cbn
         end; rewrite ?andb_false_r; discriminate.
Qed.

(** X12.  [Validate] accepts exactly the valid requests: those with a name,
    a numeric type code other than 0, tags that decode, the CA certificate
    when TLS is requested without skipping server verification, the
    certificate and the key when TLS is requested without skipping client
    verification, and the three Azure fields for the Azure type or a
    readable URL field for any other.  The payload of an accepted request is
    made of the fields read: the TLS flags and files are left at their zero
    values unless TLS is requested, the URLs are not read for the Azure type
    nor the Azure fields for the other types, the group defaults to 1 and
    the tags to the empty sequence. *)
Theorem Validate_characterised (r : Request) :
  (snd (Validate P.zero r) = None <-> validRequest r = true)
  /\ (validRequest r = true -> Validate P.zero r = (validatedPayload r, None)).
Proof.
  assert (Hok : validRequest r = true ->
                Validate P.zero r = (validatedPayload r, None)).
  { intros Hvalid. pose proof (Validate_complete r Hvalid) as Hnone.
    destruct (Validate P.zero r) as [payload err] eqn:E.
    cbn in Hnone. subst err.
    destruct (Validate_accepts r payload E) as [_ ->]. reflexivity. }
  split; [split|exact Hok].
  - intros Hnone.
    destruct (Validate P.zero r) as [payload err] eqn:E.
    cbn in Hnone. subst err. apply (Validate_accepts r payload E).
  - intros Hvalid. rewrite (Hok Hvalid). reflexivity.
Qed.

Lemma Validate_characterised_witness :
  Validate P.zero (tlsRequest true false)
  = (P.mk "prod1" "tcp://10.0.0.5:2376" 1 "docker.example.com" 7 true true
       false [] ["c"%byte; "r"%byte] ["k"%byte] "" "" ""
       (Some ["production"; "eu"]),
     None).
Proof.
  rewrite (proj2 (Validate_characterised (tlsRequest true false)) eq_refl).
  reflexivity.
Defined.

(** X13.  An error of [Validate] is one of its ten messages, and the message
    names a field that had to be read and could not be (for the type: could
    not be read or is 0).  A request that is refused for its TLS files asked
    for TLS without skipping the verification those files serve; one refused
    for an Azure field has the Azure type; one refused for its URL has
    not. *)
Theorem Validate_error_names_the_field (r : Request) (e : error) :
  snd (Validate P.zero r) = Some e ->
  In e validationMessages /\ blames r e = true.
Proof.
  unfold Validate, validateTLS, validateByType.
  repeat (goal_destruct; cbn -[Z.eqb]); intros E; inversion E; subst; clear E.
  all: unfold validationMessages, blames, portainer_Error,
         ErrInvalidEndpointType.
  all: split; [cbn; repeat (first [left; reflexivity | right])|].
  all: cbn -[Z.eqb needsCA needsClientFiles formIsAzure fileUploaded formType].
  all: unfold_form; rewrite_accessors; cbn -[Z.eqb] in *.
  all: repeat match goal with
         | Hb : _ = true |- _ => rewrite Hb in *; cbn -[Z.eqb] in *
         | Hb : _ = false |- _ => rewrite Hb in *; cbn -[Z.eqb] in *
         end.
  all: rewrite ?orb_true_r; reflexivity.
Qed.

Lemma Validate_error_names_the_field_witness :
  snd (Validate P.zero badTagsRequest)
  = Some (portainer_Error "Invalid Tags parameter")
  /\ blames badTagsRequest (portainer_Error "Invalid Tags parameter") = true.
Proof.
  split; [reflexivity|].
  apply (Validate_error_names_the_field badTagsRequest
           (portainer_Error "Invalid Tags parameter") eq_refl).
Defined.

(** ** From the form to the record *)

(** The fields of the endpoint a creation path returns that come straight
    from the payload, and its type by kind of registration. *)
Lemma createEndpoint_record rt handler payload st ep :
  fst (fst (createEndpoint rt handler payload st)) = Some ep ->
  Endpoint.Name ep = P.Name payload
  /\ Endpoint.GroupID ep = P.GroupID payload
  /\ (if isAzure payload then Endpoint.Type_ ep = AzureEnvironment
      else if isEdgeAgent payload
           then Endpoint.Type_ ep = EdgeAgentEnvironment
           else Endpoint.Type_ ep = DockerEnvironment
                \/ Endpoint.Type_ ep = AgentOnDockerEnvironment)
  /\ (isAzure payload = true ->
      Endpoint.AzureCredentials ep = azureCredentials payload)
  /\ (isAzure payload = false ->
      Endpoint.AzureCredentials ep = AzureCredentials.zero).
Proof.
  unfold isEdgeAgent, isAzure, azureCredentials.
  by_kind payload; cbn [negb andb].
  all: run_as res err st'; intros Hep; try discriminate Hep.
  all: injection Hep as <-; cbn; repeat split; auto; discriminate.
Qed.

(** X14.  The endpoint [endpointCreate] returns comes from a valid request.
    It has the name of the form and its group, group 1 when the form gives
    none or 0, so never group 0.  Its type is one of the four recognized
    ones even when the type code of the form is not: Azure exactly for code
    3, EdgeAgent exactly for code 4, and a Docker type for any other code.
    It carries the Azure credentials of the form for the Azure type and
    none otherwise. *)
Theorem endpointCreate_record rt handler r st ep :
  fst (fst (endpointCreate rt handler r st)) = Some ep ->
  validRequest r = true
  /\ Endpoint.Name ep = formName r
  /\ Endpoint.GroupID ep = formGroupID r
  /\ Endpoint.GroupID ep <> 0
  /\ recognizedType (Endpoint.Type_ ep) = true
  /\ (Endpoint.Type_ ep = AzureEnvironment <-> formType r = 3)
  /\ (Endpoint.Type_ ep = EdgeAgentEnvironment <-> formType r = 4)
  /\ Endpoint.AzureCredentials ep
     = (if formType r =? 3
        then AzureCredentials.mk
               (fst (RetrieveMultiPartFormValue r "AzureApplicationID" false))
               (fst (RetrieveMultiPartFormValue r "AzureTenantID" false))
               (fst (RetrieveMultiPartFormValue r "AzureAuthenticationKey"
                       false))
        else AzureCredentials.zero).
Proof.
  unfold endpointCreate.
  destruct (authorizeEndpointManagement handler); [|discriminate].
  cbn [negb].
  destruct (Validate P.zero r) as [payload [verr|]] eqn:E; [discriminate|].
  intros Hep.
  destruct (Validate_accepts r payload E) as [Hvalid ->].
  destruct (createEndpoint_record _ _ _ _ _ Hep)
    as (Hname & Hgroup & Htype & Haz & Hnaz).
  unfold isAzure, isEdgeAgent, isAzure, azureCredentials in *.
  cbn [validatedPayload P.EndpointType P.Name P.GroupID P.AzureApplicationID
         P.AzureTenantID P.AzureAuthenticationKey] in *.
  unfold formIsAzure in *.
  change AzureEnvironment with 3 in *. change EdgeAgentEnvironment with 4 in *.
  assert (Hg : formGroupID r <> 0).
  { unfold formGroupID.
    destruct (fst (RetrieveNumericMultiPartFormValue r "GroupID" true) =? 0)
      eqn:Eg; [discriminate|]. apply Z.eqb_neq. exact Eg. }
  split; [exact Hvalid|]. split; [exact Hname|]. split; [exact Hgroup|].
  split; [rewrite Hgroup; exact Hg|].
  destruct (formType r =? 3) eqn:E3.
  - apply Z.eqb_eq in E3. rewrite (Haz eq_refl), Htype, E3.
    repeat split; try reflexivity; intros; discriminate.
  - apply Z.eqb_neq in E3. rewrite (Hnaz eq_refl). cbn [negb andb] in Htype.
    destruct (formType r =? 4) eqn:E4.
    + apply Z.eqb_eq in E4. rewrite Htype, E4.
      repeat split; try reflexivity; intros; discriminate.
    + apply Z.eqb_neq in E4.
      destruct Htype as [-> | ->]; unfold DockerEnvironment,
        AgentOnDockerEnvironment; repeat split; try reflexivity;
        intros; try discriminate; contradiction.
Qed.

Lemma endpointCreate_record_witness :
  formType (dockerRequest 5 "" false) = 5
  /\ option_map Endpoint.Type_
       (fst (fst (endpointCreate reachable healthy (dockerRequest 5 "" false)
                    emptyState)))
     = Some DockerEnvironment
  /\ option_map Endpoint.GroupID
       (fst (fst (endpointCreate reachable healthy (dockerRequest 5 "" false)
                    emptyState)))
     = Some 1.
Proof.
  split; [reflexivity|].
  destruct (fst (fst (endpointCreate reachable healthy
                        (dockerRequest 5 "" false) emptyState)))
    as [ep|] eqn:E; [|vm_compute in E; discriminate E].
  destruct (endpointCreate_record _ _ _ _ _ E)
    as (_ & _ & Hgroup & _ & Hrec & Haz & Hedge & _).
  cbn. rewrite Hgroup. split; [|reflexivity].
  vm_compute in E. injection E as <-. reflexivity.
Defined.

(** ** Ports, URLs and keys of EdgeAgent registrations *)

Lemma append_inv_head (p s t : string) : p ++ s = p ++ t -> s = t.
Proof.
  induction p as [|c p IH]; cbn; [auto|].
  intros H. injection H as H. auto.
Qed.

Lemma Z_to_int_proper (i : Z) :
  Z.to_int i <> Decimal.Pos Decimal.Nil /\ Z.to_int i <> Decimal.Neg Decimal.Nil.
Proof.
  destruct i as [|p|p]; cbn; split; try discriminate;
    intros H; injection H as H;
    exact (DecimalPos.Unsigned.to_uint_nonnil p H).
Qed.

(** [Itoa] gives different strings for different numbers. *)
Lemma Itoa_injective (a b : Z) : Itoa a = Itoa b -> a = b.
Proof.
  unfold Itoa. intros H.
  apply DecimalZ.to_int_inj.
  destruct (Z_to_int_proper a) as [Ha1 Ha2].
  destruct (Z_to_int_proper b) as [Hb1 Hb2].
  pose proof (NilZero.isi _ Ha1 Ha2) as Pa.
  pose proof (NilZero.isi _ Hb1 Hb2) as Pb.
  rewrite H in Pa. rewrite Pa in Pb. injection Pb as Pb. exact Pb.
Qed.

(** X15.  The URLs of two successful EdgeAgent registrations are the same
    exactly when the same port was drawn for both, and nothing is checked
    against the ports in use: the second registration may well start from
    the state the first one left, with the first endpoint persisted.  With
    the same port, the same request URL and the same fingerprint, on the
    same runtime, the two edge keys are the same too. *)
Theorem edge_url_collides_iff_same_draw
    rt1 rt2 handler1 handler2 payload1 payload2 st1 st2 ep1 ep2 :
  isEdgeAgent payload1 = true ->
  isEdgeAgent payload2 = true ->
  fst (fst (createEndpoint rt1 handler1 payload1 st1)) = Some ep1 ->
  fst (fst (createEndpoint rt2 handler2 payload2 st2)) = Some ep2 ->
  (Endpoint.URL ep1 = Endpoint.URL ep2
   <-> edgePort rt1 st1 = edgePort rt2 st2)
  /\ (rt1 = rt2 ->
      edgePort rt1 st1 = edgePort rt2 st2 ->
      P.URL payload1 = P.URL payload2 ->
      TunnelServerFingerprint handler1 = TunnelServerFingerprint handler2 ->
      Endpoint.EdgeKey ep1 = Endpoint.EdgeKey ep2).
Proof.
  intros Hk1 Hk2 H1 H2.
  rewrite (createEndpoint_EdgeAgent _ _ _ Hk1) in H1.
  rewrite (createEndpoint_EdgeAgent _ _ _ Hk2) in H2.
  destruct (createEdgeAgentEndpoint rt1 handler1 payload1 st1)
    as [[res1 err1] st1'] eqn:E1.
  destruct (createEdgeAgentEndpoint rt2 handler2 payload2 st2)
    as [[res2 err2] st2'] eqn:E2.
  cbn in H1, H2. subst res1 res2.
  assert (err1 = None) as ->.
  { pose proof (createEdgeAgentEndpoint_persists rt1 handler1 payload1 st1)
      as Hp. unfold persistsAtMostOne in Hp. rewrite E1 in Hp. apply Hp. }
  assert (err2 = None) as ->.
  { pose proof (createEdgeAgentEndpoint_persists rt2 handler2 payload2 st2)
      as Hp. unfold persistsAtMostOne in Hp. rewrite E2 in Hp. apply Hp. }
  apply createEdgeAgentEndpoint_success in E1, E2.
  destruct E1 as (key1 & Hj1 & -> & _). destruct E2 as (key2 & Hj2 & -> & _).
  cbn [Endpoint.URL Endpoint.EdgeKey]. split; [split|].
  - intros H. apply Itoa_injective, (append_inv_head _ _ _ H).
  - intros ->. reflexivity.
  - intros <- Hport Hurl Hfp.
    unfold edgeKeyRecord in Hj1, Hj2.
    rewrite Hport, Hurl, Hfp, Hj2 in Hj1.
    injection Hj1 as ->. reflexivity.
Qed.

Lemma edge_url_collides_iff_same_draw_witness :
  let out1 := createEndpoint stuckRandom healthy edgePayload emptyState in
  let out2 := createEndpoint stuckRandom healthy edgePayload (snd out1) in
  option_map Endpoint.URL (fst (fst out1))
  = option_map Endpoint.URL (fst (fst out2))
  /\ option_map Endpoint.ID (fst (fst out1)) = Some 1
  /\ option_map Endpoint.ID (fst (fst out2)) = Some 2
  /\ List.length (endpoints (snd out2)) = 2%nat.
Proof.
  cbv zeta.
  destruct (fst (fst (createEndpoint stuckRandom healthy edgePayload
                        emptyState))) as [ep1|] eqn:E1;
    [|vm_compute in E1; discriminate E1].
  destruct (fst (fst (createEndpoint stuckRandom healthy edgePayload
                        (snd (createEndpoint stuckRandom healthy edgePayload
                                emptyState))))) as [ep2|] eqn:E2;
    [|vm_compute in E2; discriminate E2].
  destruct (edge_url_collides_iff_same_draw stuckRandom stuckRandom healthy
              healthy edgePayload edgePayload emptyState
              (snd (createEndpoint stuckRandom healthy edgePayload
                      emptyState)) ep1 ep2 eq_refl eq_refl E1 E2)
    as [[_ Hsame] _].
  cbn [option_map]. rewrite (Hsame eq_refl).
  split; [reflexivity|].
  vm_compute in E1. vm_compute in E2.
  injection E1 as <-. injection E2 as <-.
  repeat split.
Defined.

Lemma HasPrefix_app (prefix s : string) : HasPrefix (prefix ++ s) prefix = true.
Proof.
  induction prefix as [|c p IH]; [destruct s; reflexivity|].
  change (String c p ++ s) with (String c (p ++ s)).
  cbn [HasPrefix]. rewrite Ascii.eqb_refl. exact IH.
Qed.

Lemma dropString_app (prefix s : string) :
  dropString (String.length prefix) (prefix ++ s) = s.
Proof.
  induction prefix as [|c p IH]; [destruct s; reflexivity|exact IH].
Qed.

Lemma HasPrefix_inv (s prefix : string) :
  HasPrefix s prefix = true -> exists rest, s = prefix ++ rest.
Proof.
  revert s. induction prefix as [|c p IH]; intros s H.
  - exists s. reflexivity.
  - destruct s as [|d s]; [discriminate|]. cbn in H.
    apply andb_prop in H. destruct H as [Hc Hp].
    apply Ascii.eqb_eq in Hc. subst d.
    destruct (IH s Hp) as [rest ->]. exists rest. reflexivity.
Qed.

(** X16.  The edge key of a successful EdgeAgent registration is the
    encoded digest of the serialisation of a key record that describes the
    endpoint returned.  The tunnel port of the record is the port the URL
    of the endpoint ends with, the decimal form of the port drawn.  Its
    tunnel server address is the URL of the request without one leading
    ["tcp://"]: what follows the prefix when the URL has it (a second
    ["tcp://"] is kept), the whole URL when it has not; put back behind
    ["tcp://"] in the first case, it is the URL again.  The tunnel server
    port is always ["8000"], the fingerprint is that of the handler and the
    credentials are always ["agent@randomstring"]. *)
Theorem edge_key_describes_the_endpoint rt handler payload st ep st' :
  isEdgeAgent payload = true ->
  createEndpoint rt handler payload st = (Some ep, None, st') ->
  exists key marshaledKey,
    json_Marshal rt key = (marshaledKey, None)
    /\ Endpoint.EdgeKey ep
       = RawStdEncoding_EncodeToString (HashFromBytes marshaledKey)
    /\ Endpoint.URL ep = "tcp://localhost:" ++ EdgeKey.TunnelPort key
    /\ EdgeKey.TunnelPort key = Itoa (edgePort rt st)
    /\ (forall host,
          P.URL payload = "tcp://" ++ host ->
          EdgeKey.TunnelServerAddr key = host)
    /\ (HasPrefix (P.URL payload) "tcp://" = true ->
        "tcp://" ++ EdgeKey.TunnelServerAddr key = P.URL payload)
    /\ (HasPrefix (P.URL payload) "tcp://" = false ->
        EdgeKey.TunnelServerAddr key = P.URL payload)
    /\ EdgeKey.TunnelServerPort key = "8000"
    /\ EdgeKey.TunnelServerFingerprint key = TunnelServerFingerprint handler
    /\ EdgeKey.Credentials key = "agent@randomstring".
Proof.
  intros Hkind E.
  rewrite (createEndpoint_EdgeAgent _ _ _ Hkind) in E.
  apply createEdgeAgentEndpoint_success in E.
  destruct E as (marshaledKey & Hjson & -> & _).
  exists (edgeKeyRecord handler payload (edgePort rt st)), marshaledKey.
  split; [exact Hjson|].
  unfold edgeKeyRecord, TrimPrefix.
  cbn [Endpoint.EdgeKey Endpoint.URL EdgeKey.TunnelServerAddr
       EdgeKey.TunnelPort EdgeKey.TunnelServerPort
       EdgeKey.TunnelServerFingerprint EdgeKey.Credentials].
  repeat split.
  - intros host ->. rewrite HasPrefix_app. apply dropString_app.
  - intros Hp. rewrite Hp.
    destruct (HasPrefix_inv _ _ Hp) as [rest ->].
    rewrite dropString_app. reflexivity.
  - intros ->. reflexivity.
Qed.

Lemma edge_key_describes_the_endpoint_witness :
  exists ep key marshaledKey,
    fst (createEndpoint reachable healthy edgePayload emptyState)
    = (Some ep, None)
    /\ json_Marshal reachable key = (marshaledKey, None)
    /\ Endpoint.EdgeKey ep
       = RawStdEncoding_EncodeToString (HashFromBytes marshaledKey)
    /\ Endpoint.URL ep = "tcp://localhost:53394"
    /\ EdgeKey.TunnelPort key = "53394"
    /\ EdgeKey.TunnelServerAddr key = "portainer.example.com"
    /\ EdgeKey.TunnelServerPort key = "8000"
    /\ EdgeKey.TunnelServerFingerprint key = "fingerprint".
Proof.
  destruct (createEndpoint reachable healthy edgePayload emptyState)
    as [[[ep|] [e|]] st'] eqn:E;
    try (vm_compute in E; discriminate E).
  destruct (edge_key_describes_the_endpoint reachable healthy edgePayload
              emptyState ep st' eq_refl E)
    as (key & marshaledKey & Hjson & Hkey & Hurl & Hport & Haddr & _ & _
        & Hserver & Hprint & _).
  exists ep, key, marshaledKey.
  split; [reflexivity|]. split; [exact Hjson|]. split; [exact Hkey|].
  split; [rewrite Hurl, Hport; reflexivity|].
  split; [rewrite Hport; reflexivity|].
  split; [apply Haddr; reflexivity|].
  split; [exact Hserver|exact Hprint].
Defined.

(** ** Reachable engines *)

(** X17.  An unsecured Docker registration for a reachable engine, with a
    snapshotter that gives a snapshot and a database that takes the write,
    succeeds in four calls (ping, identifier, snapshot, write): the
    endpoint returned and persisted is Up, holds the snapshot, keeps the URL
    of the request and has the type the ping gave. *)
Theorem unsecured_reachable_is_up rt handler payload st agent snapshot :
  isUnsecuredDocker payload = true ->
  P.URL payload <> "" ->
  client_ExecutePingOperation rt (P.URL payload) None = (agent, None) ->
  (forall e, Snapshotter_CreateSnapshot handler e = (Some snapshot, None)) ->
  (forall e, EndpointService_CreateEndpoint handler e = None) ->
  let out := createEndpoint rt handler payload st in
  exists ep,
    fst out = (Some ep, None)
    /\ endpoints (snd out) = (endpoints st ++ [ep])%list
    /\ Endpoint.Status ep = EndpointStatusUp
    /\ Endpoint.Snapshots ep = [snapshot]
    /\ Endpoint.URL ep = P.URL payload
    /\ Endpoint.Type_ ep = dockerType agent
    /\ Endpoint.ID ep = nextIdentifier st
    /\ newCalls st (snd out)
       = [PingOperation (P.URL payload) None;
          NextIdentifier (nextIdentifier st);
          SnapshotAttempt
            (Endpoint.with_Snapshots []
               (Endpoint.with_Status EndpointStatusUp ep));
          EndpointWrite ep].
Proof.
  intros Hkind Hurl Hping Hsnap Hdb. cbv zeta.
  rewrite (createEndpoint_unsecured _ _ _ Hkind).
  unfold createUnsecuredEndpoint.
  apply String.eqb_neq in Hurl. rewrite Hurl.
  unfold bind at 1, ExecutePingOperation. rewrite Hping.
  unfold persistUnsecuredEndpoint, snapshotAndPersistEndpoint, bind,
    GetNextIdentifier, CreateSnapshot, CreateEndpoint, ret, emit, dockerType.
  cbn. rewrite Hsnap. cbn. rewrite !Hdb. cbn.
  eexists. split; [reflexivity|]. calls. cbn.
  repeat split.
Qed.

Lemma unsecured_reachable_is_up_witness :
  let out := createEndpoint agentFronted healthy
               (dockerPayload 1 "tcp://10.0.0.5:2375" false) emptyState in
  option_map Endpoint.Status (fst (fst out)) = Some EndpointStatusUp
  /\ option_map Endpoint.Snapshots (fst (fst out))
     = Some [mkSnapshot 1700000000]
  /\ option_map Endpoint.Type_ (fst (fst out)) = Some AgentOnDockerEnvironment.
Proof.
  cbv zeta.
  pose proof (unsecured_reachable_is_up agentFronted healthy
                (dockerPayload 1 "tcp://10.0.0.5:2375" false) emptyState true
                (mkSnapshot 1700000000) eq_refl) as H.
  cbv zeta in H.
  destruct H as (ep & Hres & _ & Hup & Hsnaps & _ & Hty & _).
  - vm_compute. discriminate.
  - reflexivity.
  - intros e. reflexivity.
  - intros e. reflexivity.
  - rewrite Hres. cbn. rewrite Hup, Hsnaps, Hty. repeat split.
Defined.

(** ** Messages *)

(** X18.  The error of a creation path carries one of five messages: the
    Azure authentication, the encoding of the Edge key, the TLS
    configuration, the ping or the database write.  An error of
    [storeTLSFiles] carries one of three other messages, so it is never the
    error a creation path returns. *)
Theorem createEndpoint_error_messages rt handler payload st herr :
  snd (fst (createEndpoint rt handler payload st)) = Some herr ->
  In (HandlerError.Message herr) creationMessages
  /\ ~ In (HandlerError.Message herr) fileStoreMessages
  /\ (forall e st0 herr',
        snd (fst (storeTLSFiles handler e payload st0)) = Some herr' ->
        In (HandlerError.Message herr') fileStoreMessages).
Proof.
  intros Herr.
  assert (Hin : In (HandlerError.Message herr) creationMessages).
  { revert Herr. by_kind payload; run_as res err st';
      intros Herr; try discriminate Herr; injection Herr as <-;
      cbn; auto 10. }
  split; [exact Hin|]. split.
  - clear - Hin. unfold creationMessages, fileStoreMessages in *.
    cbn in Hin. intros Hin'. cbn in Hin'.
    repeat match goal with
           | H : _ \/ _ |- _ => destruct H as [H|H]
           | H : False |- _ => destruct H
           end;
      rewrite <- Hin in Hin'; discriminate Hin'.
  - clear. intros e st0 herr'. unfold storeTLSFiles, storeClientFiles.
    exec; intros Hs; try discriminate Hs; injection Hs as <-; cbn; auto.
Qed.

Lemma createEndpoint_error_messages_witness :
  snd (fst (createEndpoint unreachable diskFull (tlsPayload false false)
              emptyState))
  = Some (HandlerError.mk StatusInternalServerError
            "Unable to ping Docker environment"
            "dial tcp 10.0.0.5:2375: i/o timeout")
  /\ In "Unable to ping Docker environment" creationMessages.
Proof.
  split; [reflexivity|].
  apply (createEndpoint_error_messages unreachable diskFull
           (tlsPayload false false) emptyState
           (HandlerError.mk StatusInternalServerError
              "Unable to ping Docker environment"
              "dial tcp 10.0.0.5:2375: i/o timeout") eq_refl).
Defined.

(** * Properties of the controller and of the table *)

Import EndpointController.

Lemma indexOf_lower_bound (s search : string) : -1 <= indexOf s search.
Proof.
  induction s as [|c s IH]; cbn [indexOf].
  - destruct (HasPrefix "" search); lia.
  - destruct (HasPrefix (String c s) search); [lia|].
    destruct (indexOf s search <? 0) eqn:E; [lia|].
    apply Z.ltb_ge in E. lia.
Qed.

(** [s.indexOf(search) === 0] says that [s] starts with [search]. *)
Lemma indexOf_zero_iff (s search : string) :
  (indexOf s search =? 0) = HasPrefix s search.
Proof.
  destruct s as [|c s]; cbn [indexOf].
  - destruct (HasPrefix "" search); reflexivity.
  - destruct (HasPrefix (String c s) search); [reflexivity|].
    pose proof (indexOf_lower_bound s search).
    destruct (indexOf s search <? 0) eqn:E; [reflexivity|].
    apply Z.ltb_ge in E. apply Z.eqb_neq. lia.
Qed.

(** X19.  [updateEndpoint] sends a TLS file only when it is needed and has
    changed: each file of the payload is [null] or the file of the form,
    [null] when the file of the form is the one the endpoint has, and by
    mode, with TLS on: no file for ["tls_only"], at most the CA certificate
    for ["tls_ca"], at most the certificate and the key for
    ["tls_client_noca"].  With TLS off both skip flags are off. *)
Theorem updateEndpoint_files_follow_mode endpointType endpoint securityData :
  let p := updateEndpoint endpointType endpoint securityData in
  let config := endpointTLSConfig endpoint in
  (TLS securityData = false ->
   payloadTLSSkipVerify p = false /\ payloadTLSSkipClientVerify p = false)
  /\ (TLS securityData = true ->
      (TLSMode securityData = "tls_only" ->
       payloadTLSCACert p = JSNull /\ payloadTLSCert p = JSNull
       /\ payloadTLSKey p = JSNull)
      /\ (TLSMode securityData = "tls_ca" ->
          payloadTLSSkipVerify p = false
          /\ payloadTLSCert p = JSNull /\ payloadTLSKey p = JSNull)
      /\ (TLSMode securityData = "tls_client_noca" ->
          payloadTLSSkipClientVerify p = false
          /\ payloadTLSCACert p = JSNull)
      /\ (TLSMode securityData = "tls_client_ca" ->
          payloadTLSSkipVerify p = false
          /\ payloadTLSSkipClientVerify p = false))
  /\ (strictEquals (TLSCACert securityData) (configTLSCACert config) = true ->
      payloadTLSCACert p = JSNull)
  /\ (strictEquals (TLSCert securityData) (configTLSCert config) = true ->
      payloadTLSCert p = JSNull)
  /\ (strictEquals (TLSKey securityData) (configTLSKey config) = true ->
      payloadTLSKey p = JSNull)
  /\ (payloadTLSCACert p = JSNull
      \/ payloadTLSCACert p = TLSCACert securityData)
  /\ (payloadTLSCert p = JSNull \/ payloadTLSCert p = TLSCert securityData)
  /\ (payloadTLSKey p = JSNull \/ payloadTLSKey p = TLSKey securityData).
Proof.
  cbv zeta. unfold updateEndpoint.
  cbn [payloadTLSSkipVerify payloadTLSSkipClientVerify payloadTLSCACert
         payloadTLSCert payloadTLSKey].
  repeat (split_all; intros).
  all: repeat match goal with
         | H : TLS _ = _ |- _ => rewrite H; clear H
         | H : TLSMode _ = _ |- _ => rewrite H; clear H
         | H : strictEquals _ _ = true |- _ => rewrite H; clear H
         end.
  all: rewrite ?orb_true_r; try reflexivity.
  all: match goal with
       | |- (if ?c then _ else _) = _ \/ _ => destruct c; auto
       end.
Qed.

Lemma updateEndpoint_files_follow_mode_witness :
  let securityData :=
    mkSecurityFormData true "tls_ca" (JSObject 1) (JSObject 2) (JSObject 3) in
  let endpoint :=
    mkEndpoint "prod1" "10.0.0.5:2376" "" 1 [] 1
      (mkTLSConfig (JSString "/data/tls/1/ca.pem") JSUndefined JSUndefined)
      (mkCredentials "" "" "") in
  let p := updateEndpoint "remote" endpoint securityData in
  payloadTLSCACert p = JSObject 1
  /\ payloadTLSCert p = JSNull /\ payloadTLSKey p = JSNull.
Proof.
  cbv zeta. split; [reflexivity|].
  apply (updateEndpoint_files_follow_mode "remote"
           (mkEndpoint "prod1" "10.0.0.5:2376" "" 1 [] 1
              (mkTLSConfig (JSString "/data/tls/1/ca.pem") JSUndefined
                 JSUndefined)
              (mkCredentials "" "" ""))
           (mkSecurityFormData true "tls_ca" (JSObject 1) (JSObject 2)
              (JSObject 3))); reflexivity.
Defined.

(** X20.  The endpoint of an unsecured Docker registration with an empty
    URL is a local one for the controller, on every platform: [initView]
    sets the endpoint type to ["local"], and [updateEndpoint] then sends no
    URL, whatever the filter [stripprotocol] does and whatever the form
    holds. *)
Theorem local_engine_is_edited_as_local
    rt handler payload st ep stripprotocol endpoint securityData :
  isUnsecuredDocker payload = true ->
  P.URL payload = "" ->
  fst (fst (createEndpoint rt handler payload st)) = Some ep ->
  URL endpoint = Endpoint.URL ep ->
  fst (initView stripprotocol endpoint) = "local"
  /\ payloadURL (loadThenUpdate stripprotocol endpoint securityData) = None.
Proof.
  intros Hkind Hurl Hep Hsame.
  assert (Hlocal : Endpoint.URL ep = localEngineSocket rt).
  { rewrite (createEndpoint_unsecured _ _ _ Hkind) in Hep.
    unfold createUnsecuredEndpoint in Hep. rewrite Hurl in Hep.
    cbn [String.eqb] in Hep. unfold localEngineSocket.
    destruct (String.eqb (GOOS rt) "windows");
      apply (proj1 (proj2 (persistUnsecuredEndpoint_spec _ _ _ _)) ep Hep). }
  assert (Htype : fst (initView stripprotocol endpoint) = "local").
  { unfold initView. cbn [fst]. rewrite Hsame, Hlocal.
    unfold localEngineSocket.
    destruct (String.eqb (GOOS rt) "windows"); reflexivity. }
  split; [exact Htype|].
  unfold loadThenUpdate. unfold initView in *. cbn [fst] in Htype.
  cbv zeta. rewrite Htype. reflexivity.
Qed.

Lemma local_engine_is_edited_as_local_witness :
  option_map
    (fun ep =>
       payloadURL
         (loadThenUpdate (fun url => TrimPrefix url "unix://")
            (mkEndpoint (Endpoint.Name ep) (Endpoint.URL ep) "" 1 [] 1
               (mkTLSConfig JSUndefined JSUndefined JSUndefined)
               (mkCredentials "" "" ""))
            (mkSecurityFormData false "tls_client_ca" JSNull JSNull JSNull)))
    (fst (fst (createEndpoint reachable healthy (dockerPayload 1 "" false)
                 emptyState)))
  = Some None.
Proof.
  destruct (fst (fst (createEndpoint reachable healthy
                        (dockerPayload 1 "" false) emptyState)))
    as [ep|] eqn:Hep; [|vm_compute in Hep; discriminate Hep].
  cbn [option_map]. f_equal.
  apply (local_engine_is_edited_as_local reachable healthy
           (dockerPayload 1 "" false) emptyState ep
           (fun url => TrimPrefix url "unix://") _ _ eq_refl eq_refl Hep).
  reflexivity.
Defined.

(** X21.  An endpoint whose URL is ["tcp://"] followed by a host is a remote
    one for the controller.  Loaded and sent back unchanged, it keeps its
    URL, provided that it is not an Azure endpoint and that the filter
    [stripprotocol] takes the ["tcp://"] off this URL; an Azure endpoint
    (type 3) is sent without URL. *)
Theorem tcp_url_survives_edition stripprotocol endpoint securityData host :
  URL endpoint = "tcp://" ++ host ->
  fst (initView stripprotocol endpoint) = "remote"
  /\ (Type_ endpoint = 3 ->
      payloadURL (loadThenUpdate stripprotocol endpoint securityData) = None)
  /\ (Type_ endpoint <> 3 ->
      stripprotocol (URL endpoint) = host ->
      payloadURL (loadThenUpdate stripprotocol endpoint securityData)
      = Some (URL endpoint)).
Proof.
  intros Hurl.
  assert (Htype : fst (initView stripprotocol endpoint) = "remote").
  { unfold initView. cbn [fst]. rewrite !indexOf_zero_iff, Hurl.
    reflexivity. }
  split; [exact Htype|].
  unfold loadThenUpdate. unfold initView in *. cbn [fst] in Htype.
  cbv zeta. rewrite Htype. unfold updateEndpoint. cbn [payloadURL URL Type_].
  split.
  - intros ->. reflexivity.
  - intros Hty Hstrip. apply Z.eqb_neq in Hty. rewrite Hty, Hstrip, Hurl.
    reflexivity.
Qed.

Lemma tcp_url_survives_edition_witness :
  payloadURL
    (loadThenUpdate (fun url => TrimPrefix url "tcp://")
       (mkEndpoint "edge1" "tcp://localhost:53394" "" 1 [] 4
          (mkTLSConfig JSUndefined JSUndefined JSUndefined)
          (mkCredentials "" "" ""))
       (mkSecurityFormData false "tls_client_ca" JSNull JSNull JSNull))
  = Some "tcp://localhost:53394".
Proof.
  apply (tcp_url_survives_edition (fun url => TrimPrefix url "tcp://")
           (mkEndpoint "edge1" "tcp://localhost:53394" "" 1 [] 4
              (mkTLSConfig JSUndefined JSUndefined JSUndefined)
              (mkCredentials "" "" ""))
           (mkSecurityFormData false "tls_client_ca" JSNull JSNull JSNull)
           "localhost:53394" eq_refl).
  - discriminate.
  - reflexivity.
Defined.

(** ** The columns to hide *)

Import EdgeDevicesDatatable.

(** X22.  The columns offered for hiding are the columns of the table, in
    their order, whose definition allows hiding: the first definition with
    the identifier of the column has [canHide] set to true.  A column
    without definition, or whose definition has no [canHide], is never
    offered; filtering a second time changes nothing. *)
Theorem columnsToHide_are_the_hideable_columns
    (columns : list Column) (allColumns : list ColumnInstance) :
  (forall col,
      In col (columnsToHide columns allColumns)
      <-> In col allColumns
          /\ exists def,
               columnDef columns col = Some def
               /\ id def = instanceId col
               /\ In def columns
               /\ canHide def = Some true)
  /\ (forall col,
        columnDef columns col = None ->
        ~ In col (columnsToHide columns allColumns))
  /\ (List.length (columnsToHide columns allColumns)
      <= List.length allColumns)%nat
  /\ columnsToHide columns (columnsToHide columns allColumns)
     = columnsToHide columns allColumns
  /\ (forall more,
        columnsToHide columns (allColumns ++ more)
        = (columnsToHide columns allColumns
           ++ columnsToHide columns more)%list).
Proof.
  unfold columnsToHide. split_all.
  - intros col. split.
    + intros H. apply filter_In in H. destruct H as [Hin Hh].
      split; [exact Hin|].
      unfold hideable in Hh.
      destruct (columnDef columns col) as [def|] eqn:E; [|discriminate].
      exists def. unfold columnDef in E.
      destruct (find_some _ _ E) as [Hdef Hid].
      apply String.eqb_eq in Hid.
      destruct (canHide def) as [[|]|]; try discriminate. auto.
    + intros [Hin (def & Hdef & _ & _ & Hcan)].
      apply filter_In. split; [exact Hin|].
      unfold hideable. rewrite Hdef, Hcan. reflexivity.
  - intros col Hnone Hin. apply filter_In in Hin. destruct Hin as [_ Hh].
    unfold hideable in Hh. rewrite Hnone in Hh. discriminate.
  - apply filter_length_le.
  - induction allColumns as [|col rest IH]; [reflexivity|].
    cbn [filter]. destruct (hideable columns col) eqn:E; [|exact IH].
    cbn [filter]. rewrite E, IH. reflexivity.
  - intros more. apply filter_app.
Qed.
